(** * Caliber: the statistics endpoint [GET /api/evals/stats] and the
      request cache it is read through.

    The development embeds the route handler of the statistics endpoint
    (paginated aggregation, zero-filled daily series) together with the
    pieces of the JavaScript runtime it relies on ([Date], [parseInt],
    [Map], [Array.from]) and a model of the paged store query.  *)

From Stdlib Require Import ZArith Lia String Ascii QArith Qabs Lqa.
From stdpp Require Import gmap strings list sorting.

Local Open Scope Z_scope.

(** ** ECMAScript [Date]

    A [Date] object holds a time value: an integral number of milliseconds
    since the epoch, or NaN (an invalid date).  [None] stands for NaN. *)

Definition Date : Type := option Z.

Definition msPerDay : Z := 86400000.
Definition maxTimeValue : Z := 8640000000000000.

Definition DayOf (t : Z) : Z := t / msPerDay.
Definition TimeWithinDay (t : Z) : Z := t mod msPerDay.

Definition TimeClip (t : Z) : Date :=
  if Z.abs t <=? maxTimeValue then Some t else None.

Definition MakeDate (day time : Z) : Z := day * msPerDay + time.

(** The proleptic Gregorian calendar on day numbers (days since the epoch).
    A civil date is a triple (year, month 1..12, day of month 1..31). *)

Definition CivilDate : Type := Z * Z * Z.

Definition daysPerEra : Z := 146097.
Definition epochShift : Z := 719468.

Definition yearOfEra (doe : Z) : Z :=
  (doe - doe / 1460 + doe / 36524 - doe / 146096) / 365.

Definition dayOfYear (doe yoe : Z) : Z :=
  doe - (365 * yoe + yoe / 4 - yoe / 100).

Definition monthIndex (doy : Z) : Z := (5 * doy + 2) / 153.

Definition civil_from_days (z : Z) : CivilDate :=
  let z := z + epochShift in
  let era := z / daysPerEra in
  let doe := z mod daysPerEra in
  let yoe := yearOfEra doe in
  let doy := dayOfYear doe yoe in
  let mp := monthIndex doy in
  let d := doy - (153 * mp + 2) / 5 + 1 in
  let m := if mp <? 10 then mp + 3 else mp - 9 in
  let y := yoe + era * 400 in
  (if m <=? 2 then y + 1 else y, m, d).

Definition days_from_civil (c : CivilDate) : Z :=
  let '(y, m, d) := c in
  let y := if m <=? 2 then y - 1 else y in
  let era := y / 400 in
  let yoe := y mod 400 in
  let doy := (153 * (if 2 <? m then m - 3 else m + 9) + 2) / 5 + d - 1 in
  let doe := yoe * 365 + yoe / 4 - yoe / 100 + doy in
  era * daysPerEra + doe - epochShift.

Definition YearFromTime (t : Z) : Z := (civil_from_days (DayOf t)).1.1.
Definition MonthFromTime (t : Z) : Z := (civil_from_days (DayOf t)).1.2 - 1.
Definition DateFromTime (t : Z) : Z := (civil_from_days (DayOf t)).2.

(** [MakeDay(year, month, date)]: [month] is zero-based and may overflow
    into the year. *)
Definition MakeDay (year month date : Z) : Z :=
  days_from_civil (year + month / 12, month mod 12 + 1, 1) + date - 1.

(** JavaScript numbers that occur here are integers or NaN. *)
Definition Number : Type := option Z.

Definition num_sub (a b : Number) : Number :=
  match a, b with Some x, Some y => Some (x - y) | _, _ => None end.
Definition num_add (a b : Number) : Number :=
  match a, b with Some x, Some y => Some (x + y) | _, _ => None end.

(** [new Date()] at wall-clock time [now]. *)
Definition newDate (now : Z) : Date := TimeClip now.

(** [d.setUTCHours(0, 0, 0, 0)] *)
Definition setUTCHours0 (d : Date) : Date :=
  match d with
  | None => None
  | Some t => TimeClip (MakeDate (DayOf t) 0)
  end.

(** [d.getUTCDate()] *)
Definition getUTCDate (d : Date) : Number :=
  match d with
  | None => None
  | Some t => Some (DateFromTime t)
  end.

(** [d.setUTCDate(dt)] *)
Definition setUTCDate (d : Date) (dt : Number) : Date :=
  match d, dt with
  | Some t, Some dt =>
      TimeClip (MakeDate (MakeDay (YearFromTime t) (MonthFromTime t) dt)
                         (TimeWithinDay t))
  | _, _ => None
  end.

(** [d.toISOString()] throws a RangeError on an invalid date; [None] is the
    thrown exception.  The string denotes the time value, and that is what
    the store compares against. *)
Definition toISOString (d : Date) : option Z := d.

(** The date part [YYYY-MM-DD] of an ISO timestamp, as a civil date. *)
Definition DateKey : Type := CivilDate.

Definition isoDatePart (t : Z) : DateKey := civil_from_days (DayOf t).

(** ** [parseInt]

    Leading white space is skipped, an optional sign is read, a [0x] prefix
    selects radix 16, and the longest prefix of digits is converted; with no
    digit the result is NaN.  Strings are ASCII here, and the value is the
    exact integer: a double rounds integers beyond 2^53, which lie far
    outside the range in which the window start is a valid date. *)

Definition isWhiteSpace (c : ascii) : bool :=
  let n := Z.of_nat (nat_of_ascii c) in
  (n =? 32) || ((9 <=? n) && (n <=? 13)).

Definition digitValue (c : ascii) : option Z :=
  let n := Z.of_nat (nat_of_ascii c) in
  if (48 <=? n) && (n <=? 57) then Some (n - 48)
  else if (97 <=? n) && (n <=? 122) then Some (n - 87)
  else if (65 <=? n) && (n <=? 90) then Some (n - 55)
  else None.

Fixpoint skipWhiteSpace (s : string) : string :=
  match s with
  | String c s' => if isWhiteSpace c then skipWhiteSpace s' else s
  | EmptyString => s
  end.

Fixpoint parseDigits (radix : Z) (s : string) (acc : Number) : Number :=
  match s with
  | String c s' =>
      match digitValue c with
      | Some v =>
          if v <? radix
          then parseDigits radix s' (Some (default 0 acc * radix + v))
          else acc
      | None => acc
      end
  | EmptyString => acc
  end.

Definition stripSign (s : string) : Z * string :=
  match s with
  | String "-" s' => (-1, s')
  | String "+" s' => (1, s')
  | _ => (1, s)
  end.

Definition stripHexPrefix (s : string) : Z * string :=
  match s with
  | String "0" (String "x" s') => (16, s')
  | String "0" (String "X" s') => (16, s')
  | _ => (10, s)
  end.

Definition parseInt (s : string) : Number :=
  let '(sign, s) := stripSign (skipWhiteSpace s) in
  let '(radix, s) := stripHexPrefix s in
  match parseDigits radix s None with
  | Some n => Some (sign * n)
  | None => None
  end.

(** [v || d] on a value that is null or a string: null and the empty string
    are falsy. *)
Definition orString (v : option string) (d : string) : string :=
  match v with
  | Some EmptyString | None => d
  | Some s => s
  end.

(** ** The store

    A row of table [evaluations].  [created_at] is a timestamp (milliseconds
    since the epoch; the store renders it in UTC), [score] is NUMERIC(5,2)
    and is carried in hundredths of a point, [pii_tokens_redacted] is
    nullable. *)

Record Evaluation := mkEvaluation {
  user_id : string;
  created_at : Z;
  score : Z;
  latency_ms : Z;
  pii_tokens_redacted : option Z
}.

(** [pts n] is the score [n] in the unit of [score]. *)
Definition pts (n : Z) : Z := 100 * n.

(** The backing store: the table and, for each page request (identified by
    its offset), whether the request fails and with which message. *)
Record Store := mkStore {
  evaluations : list Evaluation;
  fault : Z -> option string
}.

(** The [{ data, error }] pair a query resolves to. *)
Record PageResult := mkPageResult {
  data : option (list Evaluation);
  error : option string
}.

Definition created_le (a b : Evaluation) : Prop := created_at a <= created_at b.

#[global] Instance created_le_dec : RelDecision created_le :=
  fun a b => Z_le_dec (created_at a) (created_at b).

(** [.eq('user_id', uid).gte('created_at', since)] *)
Definition matches (uid : string) (since : Z) (e : Evaluation) : Prop :=
  user_id e = uid /\ since <= created_at e.

#[global] Instance matches_dec uid since e : Decision (matches uid since e).
Proof. unfold matches. apply _. Defined.

(** [.order('created_at', { ascending: true })] *)
Definition matching (st : Store) (uid : string) (since : Z) : list Evaluation :=
  merge_sort created_le (filter (matches uid since) (evaluations st)).

(** [.range(from, to)]: rows [from..to] of the result, both inclusive. *)
Definition range (from to : Z) (l : list Evaluation) : list Evaluation :=
  take (Z.to_nat (to - from + 1)) (drop (Z.to_nat from) l).

Definition selectPage (st : Store) (uid : string) (since from to : Z) : PageResult :=
  match fault st from with
  | Some msg => {| data := None; error := Some msg |}
  | None => {| data := Some (range from to (matching st uid since)); error := None |}
  end.

(** The query client: the store and the log of the page requests issued so
    far, each with what it resolved to. *)
Record Client := mkClient {
  store : Store;
  requests : list (Z * PageResult)
}.

Definition fetchPage (c : Client) (uid : string) (since from to : Z)
  : PageResult * Client :=
  let r := selectPage (store c) uid since from to in
  (r, {| store := store c; requests := requests c ++ [(from, r)] |}).

(** ** Running totals *)

Module Bucket.
Record t := mk { count : Z; totalScore : Z; totalLatency : Z }.
End Bucket.

Module Dist.
Record t := mk { excellent : Z; good : Z; fair : Z; poor : Z }.
End Dist.

Record Totals := mkTotals {
  total : Z;
  totalScore : Z;
  totalLatency : Z;
  successCount : Z;
  totalPiiRedacted : Z;
  scoreDistribution : Dist.t;
  dailyMap : gmap DateKey Bucket.t
}.

Definition initialTotals : Totals :=
  {| total := 0; totalScore := 0; totalLatency := 0; successCount := 0;
     totalPiiRedacted := 0;
     scoreDistribution := Dist.mk 0 0 0 0;
     dailyMap := ∅ |}.

(** [createdAt.slice(0, 10)] *)
Definition dateKeyFromCreatedAt (createdAt : Z) : DateKey := isoDatePart createdAt.

(** [date.toISOString().split('T')[0]]; [None] is the RangeError of
    [toISOString]. *)
Definition toIsoDate (d : Date) : option DateKey :=
  match toISOString d with
  | Some t => Some (isoDatePart t)
  | None => None
  end.

Definition bumpDistribution (s : Z) (d : Dist.t) : Dist.t :=
  if pts 90 <=? s then Dist.mk (Dist.excellent d + 1) (Dist.good d) (Dist.fair d) (Dist.poor d)
  else if pts 70 <=? s then Dist.mk (Dist.excellent d) (Dist.good d + 1) (Dist.fair d) (Dist.poor d)
  else if pts 50 <=? s then Dist.mk (Dist.excellent d) (Dist.good d) (Dist.fair d + 1) (Dist.poor d)
  else Dist.mk (Dist.excellent d) (Dist.good d) (Dist.fair d) (Dist.poor d + 1).

(** The body of [for (const e of page)]. *)
Definition addEvaluation (a : Totals) (e : Evaluation) : Totals :=
  let dateKey := dateKeyFromCreatedAt (created_at e) in
  let existing := default (Bucket.mk 0 0 0) (dailyMap a !! dateKey) in
  {| total := total a + 1;
     totalScore := totalScore a + score e;
     totalLatency := totalLatency a + latency_ms e;
     successCount := if pts 70 <=? score e then successCount a + 1 else successCount a;
     totalPiiRedacted :=
       totalPiiRedacted a + default 0 (pii_tokens_redacted e);
     scoreDistribution := bumpDistribution (score e) (scoreDistribution a);
     dailyMap :=
       <[dateKey := Bucket.mk (Bucket.count existing + 1)
                              (Bucket.totalScore existing + score e)
                              (Bucket.totalLatency existing + latency_ms e)]>
         (dailyMap a) |}.

(** ** The page loop *)

Definition pageSize : Z := 1000.
Definition maxOffset : Z := 100000.

Inductive LoopExit :=
  | Finished (a : Totals)
  | Failed (message : string).

(** [for (let offset = 0; offset < 100000; offset += pageSize)].  The
    counter [n] bounds the number of iterations; [loopIterations] is the
    number the loop header allows, and the counter never ends the loop
    before the header does (lemma [pageLoop_fuel]). *)
Fixpoint pageLoop (n : nat) (c : Client) (uid : string) (since offset : Z)
    (a : Totals) : LoopExit * Client :=
  match n with
  | O => (Finished a, c)
  | S n' =>
      if offset <? maxOffset then
        let '(res, c) := fetchPage c uid since offset (offset + pageSize - 1) in
        match error res with
        | Some msg => (Failed msg, c)
        | None =>
            match data res with
            | None => (Finished a, c)
            | Some page =>
                if Z.of_nat (length page) =? 0 then (Finished a, c)
                else
                  let a := fold_left addEvaluation page a in
                  if Z.of_nat (length page) <? pageSize then (Finished a, c)
                  else pageLoop n' c uid since (offset + pageSize) a
            end
        end
      else (Finished a, c)
  end.

Definition loopIterations : nat := Z.to_nat ((maxOffset + pageSize - 1) / pageSize).

(** ** Output *)

(** [Math.round(num / den)] for [den > 0]: the nearest integer, a tie going
    up. *)
Definition mathRound (num den : Z) : Z := (2 * num + den) / (2 * den).

(** [parseFloat((num / den).toFixed(k))] for [den > 0], in units of
    [1 / scale] with [scale = 10^k]: the nearest multiple, a tie going away
    from zero.  Quotients are exact here, where the code divides doubles. *)
Definition toFixed (scale num den : Z) : Z :=
  if num <? 0 then - mathRound (scale * - num) den
  else mathRound (scale * num) den.

Module Point.
(** [avgScore] is in tenths of a point. *)
Record t := mk { date : DateKey; count : Z; avgScore : Z; avgLatency : Z }.
End Point.

Module Stats.
(** [avgScore] is in tenths of a point, [successRate] in tenths of a
    percent. *)
Record t := mk {
  totalEvals : Z;
  avgScore : Z;
  avgLatency : Z;
  successRate : Z;
  totalPiiRedacted : Z;
  dailyTrends : list Point.t;
  scoreDistribution : Dist.t
}.
End Stats.

Inductive Response :=
  | JsonData (data : Stats.t)
  | JsonError (status : Z) (error : string).

(** [Array.from({ length: n })], as the list of its indices: the length is
    clamped below at 0 (NaN gives 0), and an array longer than [2^32 - 1]
    is a RangeError ([None]). *)
Definition arrayFromLength (n : Number) : option (list Z) :=
  let len := Z.max 0 (default 0 n) in
  if len <=? 4294967295 then Some (Z.of_nat <$> seq 0 (Z.to_nat len)) else None.

Definition dailyPoint (startUtc : Date) (m : gmap DateKey Bucket.t) (idx : Z)
  : option Point.t :=
  let day := startUtc in
  let day := setUTCDate day (num_add (getUTCDate startUtc) (Some idx)) in
  match toIsoDate day with
  | None => None
  | Some date =>
      match m !! date with
      | Some b =>
          if Bucket.count b =? 0 then Some (Point.mk date 0 0 0)
          else Some (Point.mk date (Bucket.count b)
                       (toFixed 10 (Bucket.totalScore b) (pts 1 * Bucket.count b))
                       (mathRound (Bucket.totalLatency b) (Bucket.count b)))
      | None => Some (Point.mk date 0 0 0)
      end
  end.

Definition buildStats (a : Totals) (dailyTrends : list Point.t) : Stats.t :=
  {| Stats.totalEvals := total a;
     Stats.avgScore :=
       if 0 <? total a then toFixed 10 (totalScore a) (pts 1 * total a) else 0;
     Stats.avgLatency :=
       if 0 <? total a then toFixed 1 (totalLatency a) (total a) else 0;
     Stats.successRate :=
       if 0 <? total a then toFixed 10 (successCount a * 100) (total a) else 0;
     Stats.totalPiiRedacted := totalPiiRedacted a;
     Stats.dailyTrends := dailyTrends;
     Stats.scoreDistribution := scoreDistribution a |}.

(** ** The handler *)

Record User := mkUser { id : string }.

Record AuthResult := mkAuthResult {
  user : option User;
  userError : option string
}.

(** What a request meets: the clock, the outcome of [auth.getUser()] and
    the store. *)
Record World := mkWorld {
  now : Z;
  auth : AuthResult;
  db : Store
}.

(** The request: the value of [searchParams.get('days')]. *)
Record Request := mkRequest { daysParam : option string }.

Definition parseDays (req : Request) : Number :=
  parseInt (orString (daysParam req) "7").

Definition windowStart (nowMs : Z) (days : Number) : Date :=
  let startUtc := newDate nowMs in
  let startUtc := setUTCHours0 startUtc in
  setUTCDate startUtc (num_sub (getUTCDate startUtc) (num_sub days (Some 1))).

(** The body of [try]; [None] is a thrown exception. *)
Definition statsBody (w : World) (u : User) (req : Request)
  : option Response * Client :=
  let c := {| store := db w; requests := [] |} in
  let days := parseDays req in
  let startUtc := windowStart (now w) days in
  match toISOString startUtc with
  | None => (None, c)
  | Some since =>
      match pageLoop loopIterations c (id u) since 0 initialTotals with
      | (Failed msg, c) => (Some (JsonError 500 msg), c)
      | (Finished a, c) =>
          match arrayFromLength days with
          | None => (None, c)
          | Some idxs =>
              match mapM (dailyPoint startUtc (dailyMap a)) idxs with
              | None => (None, c)
              | Some dailyTrends => (Some (JsonData (buildStats a dailyTrends)), c)
              end
          end
      end
  end.

Definition handle (w : World) (req : Request) : Response * list (Z * PageResult) :=
  match userError (auth w), user (auth w) with
  | None, Some u =>
      let '(r, c) := statsBody w u req in
      (default (JsonError 500 "Internal server error") r, requests c)
  | _, _ => (JsonError 401 "Unauthorized", [])
  end.

Definition GET (w : World) (req : Request) : Response := (handle w req).1.

(** The page requests [GET] issues. *)
Definition pageRequests (w : World) (req : Request) : list (Z * PageResult) :=
  (handle w req).2.

(** The day number on which the window starts: [days - 1] days before
    today. *)
Definition startDay (nowMs days : Z) : Z := DayOf nowMs - (days - 1).

(** The rows a page request resolved to; none when it failed. *)
Definition pageRows (r : Z * PageResult) : list Evaluation := default [] (data r.2).

(** The rows of the pages in a request log: the records the loop consumes. *)
Definition countedRows (log : list (Z * PageResult)) : list Evaluation :=
  concat (pageRows <$> log).


(** What one run of the loop from [o] establishes, given its result [out]:
    the requests it appended to the log of [c], and either the totals over
    the rows of the pages it read or the failure that ended it. *)
Definition loop_post (st : Store) (uid : string) (since : Z)
    (c : Client) (o : Z) (a : Totals) (out : LoopExit * Client) : Prop :=
  store out.2 = st /\
  exists new, requests out.2 = requests c ++ new /\
    match out.1 with
    | Finished a' =>
        Forall (fun r => error r.2 = None) new /\
        a' = fold_left addEvaluation (countedRows new) a /\
        countedRows new
        = take (Z.to_nat (maxOffset - o))
               (drop (Z.to_nat o) (matching st uid since))
    | Failed msg =>
        exists pre o',
          new = pre ++ [(o', {| data := None; error := Some msg |})] /\
          Forall (fun r => error r.2 = None) pre /\
          fault st o' = Some msg
    end.

(** ** Direct aggregation

    The statistics of a list of records computed in one pass, as the
    data model describes them: counts, sums and per-day groups, rounded at
    output time only. *)

Definition sumOf (f : Evaluation -> Z) (l : list Evaluation) : Z :=
  foldr (fun e s => f e + s) 0 l.

Definition countIf (P : Evaluation -> Prop) `{!forall e, Decision (P e)}
    (l : list Evaluation) : Z :=
  Z.of_nat (length (filter P l)).

Definition onDate (k : DateKey) (e : Evaluation) : Prop :=
  dateKeyFromCreatedAt (created_at e) = k.

#[global] Instance onDate_dec k e : Decision (onDate k e).
Proof. unfold onDate. apply _. Defined.

Definition isExcellent (e : Evaluation) : Prop := pts 90 <= score e.
Definition isGood (e : Evaluation) : Prop := pts 70 <= score e < pts 90.
Definition isFair (e : Evaluation) : Prop := pts 50 <= score e < pts 70.
Definition isPoor (e : Evaluation) : Prop := score e < pts 50.
Definition isSuccess (e : Evaluation) : Prop := pts 70 <= score e.

#[global] Instance isExcellent_dec e : Decision (isExcellent e).
Proof. unfold isExcellent. apply _. Defined.
#[global] Instance isGood_dec e : Decision (isGood e).
Proof. unfold isGood. apply _. Defined.
#[global] Instance isFair_dec e : Decision (isFair e).
Proof. unfold isFair. apply _. Defined.
#[global] Instance isPoor_dec e : Decision (isPoor e).
Proof. unfold isPoor. apply _. Defined.
#[global] Instance isSuccess_dec e : Decision (isSuccess e).
Proof. unfold isSuccess. apply _. Defined.

Definition directPoint (l : list Evaluation) (date : DateKey) : Point.t :=
  let rows := filter (onDate date) l in
  let n := Z.of_nat (length rows) in
  if n =? 0 then Point.mk date 0 0 0
  else Point.mk date n
         (toFixed 10 (sumOf score rows) (pts 1 * n))
         (mathRound (sumOf latency_ms rows) n).

(** The calendar days of the window, oldest first. *)
Definition windowDates (nowMs days : Z) : list DateKey :=
  (fun i => civil_from_days (startDay nowMs days + Z.of_nat i))
    <$> seq 0 (Z.to_nat days).

Definition directStats (l : list Evaluation) (dates : list DateKey) : Stats.t :=
  let n := Z.of_nat (length l) in
  {| Stats.totalEvals := n;
     Stats.avgScore := if 0 <? n then toFixed 10 (sumOf score l) (pts 1 * n) else 0;
     Stats.avgLatency := if 0 <? n then toFixed 1 (sumOf latency_ms l) n else 0;
     Stats.successRate :=
       if 0 <? n then toFixed 10 (countIf isSuccess l * 100) n else 0;
     Stats.totalPiiRedacted := sumOf (fun e => default 0 (pii_tokens_redacted e)) l;
     Stats.dailyTrends := directPoint l <$> dates;
     Stats.scoreDistribution :=
       Dist.mk (countIf isExcellent l) (countIf isGood l)
               (countIf isFair l) (countIf isPoor l) |}.

(** The state of a per-day bucket after the rows [rows] of its day. *)
Definition addRows (b : Bucket.t) (rows : list Evaluation) : Bucket.t :=
  Bucket.mk (Bucket.count b + Z.of_nat (length rows))
            (Bucket.totalScore b + sumOf score rows)
            (Bucket.totalLatency b + sumOf latency_ms rows).

Definition bucketAfter (o : option Bucket.t) (rows : list Evaluation)
  : option Bucket.t :=
  match rows with
  | [] => o
  | _ => Some (addRows (default (Bucket.mk 0 0 0) o) rows)
  end.

(** The sum of [count] over a daily series. *)
Definition sumCounts (ps : list Point.t) : Z :=
  foldr (fun p s => Point.count p + s) 0 ps.


(** A page request that resolved without an error. *)
Definition okRequest (r : Z * PageResult) : Prop := error r.2 = None.

(** The result of the handler once the window start is known. *)
Definition finishStats (days : Number) (since : Z) (rows : list Evaluation)
  : Response :=
  let a := fold_left addEvaluation rows initialTotals in
  match arrayFromLength days with
  | None => JsonError 500 "Internal server error"
  | Some idxs =>
      match mapM (dailyPoint (Some since) (dailyMap a)) idxs with
      | None => JsonError 500 "Internal server error"
      | Some ps => JsonData (buildStats a ps)
      end
  end.


(** ** The request cache *)

(** Modelled from the spec: module [@/lib/cache] ([cachedFetch],
    [clearCache]), which the pages import and whose source is not part of
    the repository snapshot.  The model follows the contract of the request
    cache: a key is the (method, url, body) triple with GET as the default
    method; an entry is valid while [now < expiresAt]; a valid entry is
    returned without network access; otherwise the network call is made and
    a successful response is stored with [expiresAt = now + ttlMs]; a TTL of
    zero or less is "never cache".  A call is atomic here, so no request is
    in flight when another one starts. *)
Module Cache.

Record Options := mkOptions {
  method : option string;
  body : option string
}.

Definition Key : Type := string * string * string.

Definition cacheKey (url : string) (options : option Options) : Key :=
  (default "GET"%string (options ≫= method), url,
   default ""%string (options ≫= body)).

Record Payload := mkPayload { status : Z; text : string }.

Record Entry := mkEntry { payload : Payload; expiresAt : Z }.

Inductive NetResult :=
  | Responded (p : Payload)
  | NetworkFailure (reason : string).

(** The process-wide cache and the log of the network calls made. *)
Record State := mkState {
  entries : gmap Key Entry;
  networkCalls : list Key
}.

Inductive Outcome :=
  | Resolved (p : Payload) (fromCache : bool)
  | Rejected (reason : string).

Definition isFresh (nowMs : Z) (e : Entry) : bool := nowMs <? expiresAt e.

Definition isCacheable (p : Payload) : bool :=
  (200 <=? status p) && (status p <? 300).

Definition callNetwork (net : Key -> NetResult) (key : Key) (st : State)
  : NetResult * State :=
  (net key, {| entries := entries st; networkCalls := networkCalls st ++ [key] |}).

Definition fetchAndStore (net : Key -> NetResult) (nowMs : Z) (key : Key)
    (ttlMs : Z) (st : State) : Outcome * State :=
  let '(r, st) := callNetwork net key st in
  match r with
  | Responded p =>
      if isCacheable p
      then (Resolved p false,
            {| entries := <[key := mkEntry p (nowMs + ttlMs)]> (entries st);
               networkCalls := networkCalls st |})
      else (Resolved p false, st)
  | NetworkFailure reason => (Rejected reason, st)
  end.

(** Modelled from the spec: [cachedFetch(url, options, ttlMs)]. *)
Definition cachedFetch (net : Key -> NetResult) (nowMs : Z) (url : string)
    (options : option Options) (ttlMs : Z) (st : State) : Outcome * State :=
  let key := cacheKey url options in
  if ttlMs <=? 0 then
    let '(r, st) := callNetwork net key st in
    match r with
    | Responded p => (Resolved p false, st)
    | NetworkFailure reason => (Rejected reason, st)
    end
  else
    match entries st !! key with
    | Some e =>
        if isFresh nowMs e then (Resolved (payload e) true, st)
        else fetchAndStore net nowMs key ttlMs st
    | None => fetchAndStore net nowMs key ttlMs st
    end.

(** Modelled from the spec: [clearCache(keyOrUrl)] removes the entries
    of that url. *)
Definition clearCache (url : string) (st : State) : State :=
  {| entries := filter (fun kv => kv.1.1.2 <> url) (entries st);
     networkCalls := networkCalls st |}.

End Cache.

(** ** Sample worlds *)

Definition clock : Z := 1700000000000.

Definition aliceAuth : AuthResult :=
  {| user := Some (mkUser "alice"); userError := None |}.

Definition noFault : Z -> option string := fun _ => None.

Definition sampleWorld : World :=
  mkWorld clock aliceAuth
    (mkStore [ mkEvaluation "alice" (clock - 5) (pts 90) 200 (Some 2);
               mkEvaluation "bob" clock (pts 1) 5 (Some 3);
               mkEvaluation "alice" (clock - 2 * msPerDay) (pts 45) 100 None;
               mkEvaluation "alice" (clock - 7) (pts 70) 300 (Some 2);
               mkEvaluation "alice" (clock - 9) (pts 80) 100 None ]
             noFault).

(** One record of the tenant, dated two days after [clock]. *)
Definition futureWorld : World :=
  mkWorld clock aliceAuth
    (mkStore [ mkEvaluation "alice" (clock + 2 * msPerDay) (pts 80) 100 None ]
             noFault).

Definition sampleRow : Evaluation := mkEvaluation "alice" clock (pts 80) 100 None.

(** Two full pages and a half. *)
Definition pagedWorld : World :=
  mkWorld clock aliceAuth (mkStore (replicate (Z.to_nat 2500) sampleRow) noFault).


(** The store fails the first page request. *)
Definition faultyWorld : World :=
  mkWorld clock aliceAuth
    (mkStore [sampleRow] (fun o => if o =? 0 then Some "connection reset"%string else None)).

Definition emptyWorld : World := mkWorld clock aliceAuth (mkStore [] noFault).

Definition daysRequest (s : string) : Request := mkRequest (Some s).


(** The record is dated on a day in [lo, hi). *)
Definition inDays (lo hi : Z) (e : Evaluation) : Prop :=
  lo <= DayOf (created_at e) < hi.

#[global] Instance inDays_dec lo hi e : Decision (inDays lo hi e).
Proof. unfold inDays. apply _. Defined.


(** ** The keep-alive endpoint ([GET /api/cron/keep-alive]) *)

Module KeepAlive.

(** [process.env] as far as the handler reads it. *)
Record Env := mkEnv {
  NODE_ENV : option string;
  CRON_SECRET : option string
}.

(** The [{ count, error }] pair the count query resolves to. *)
Record CountResult := mkCountResult {
  count : option Z;
  error : option string
}.

Record World := mkWorld {
  env : Env;
  now : Z;
  countQuery : CountResult
}.

(** The request: the value of [request.headers.get('authorization')]. *)
Record Request := mkRequest { authorization : option string }.

Inductive Response :=
  | Unauthorized
  | Failed (error : string) (timestamp : Z)
  | Alive (message : string) (evaluations : Z) (timestamp : Z).

(** The HTTP status of a response. *)
Definition status (r : Response) : Z :=
  match r with
  | Unauthorized => 401
  | Failed _ _ => 500
  | Alive _ _ _ => 200
  end.

(** A string or undefined as a condition: undefined and the empty string
    are falsy. *)
Definition truthy (s : option string) : bool :=
  match s with
  | Some (String _ _) => true
  | _ => false
  end.

(** [new Date().toISOString()]; [None] is the RangeError of an invalid
    date. *)
Definition timestampNow (w : World) : option Z := toISOString (newDate (now w)).

(** The condition under which the request is turned away:
    [NODE_ENV === 'production'], [cronSecret] truthy and
    [authHeader !== `Bearer ${cronSecret}`]. *)
Definition turnedAway (e : Env) (authHeader : option string) : bool :=
  bool_decide (NODE_ENV e = Some "production"%string)
  && truthy (CRON_SECRET e)
  && negb (bool_decide
             (authHeader = Some ("Bearer " ++ default ""%string (CRON_SECRET e))%string)).

(** The body of [try]: the response, or [None] for a thrown exception, and
    the number of queries sent to the store. *)
Definition tryBody (w : World) (req : Request) : option Response * nat :=
  let authHeader := authorization req in
  if turnedAway (env w) authHeader then (Some Unauthorized, 0%nat)
  else
    let r := countQuery w in
    match error r with
    | Some msg => (Failed msg <$> timestampNow w, 1%nat)
    | None =>
        (Alive "Database is active" (default 0 (count r)) <$> timestampNow w, 1%nat)
    end.

(** [GET]: an exception of the body is answered from [catch], whose own
    timestamp may throw in turn. *)
Definition GET (w : World) (req : Request) : option Response * nat :=
  match tryBody w req with
  | (Some r, q) => (Some r, q)
  | (None, q) => (Failed "Internal server error" <$> timestampNow w, q)
  end.

Definition POST (w : World) (req : Request) : option Response * nat := GET w req.

End KeepAlive.

(** ** The demo seed script *)

Module Seed.

(** 32-bit integer conversions and operators of ECMAScript. *)
Definition two32 : Z := 4294967296.

Definition ToUint32 (x : Z) : Z := x mod two32.

Definition ToInt32 (x : Z) : Z :=
  let u := x mod two32 in
  if u <? 2147483648 then u else u - two32.

(** [Math.imul(a, b)] *)
Definition imul (a b : Z) : Z := ToInt32 (ToInt32 a * ToInt32 b).

(** [a ^ b] *)
Definition xor (a b : Z) : Z := ToInt32 (Z.lxor (ToInt32 a) (ToInt32 b)).

(** [a | b] *)
Definition or (a b : Z) : Z := ToInt32 (Z.lor (ToInt32 a) (ToInt32 b)).

(** [a >>> n] *)
Definition ushr (a n : Z) : Z := Z.shiftr (ToUint32 a) (n mod 32).

(** [input.charCodeAt(i)] for each [i]; strings are ASCII here. *)
Definition charCodes (input : string) : list Z :=
  (fun c => Z.of_nat (nat_of_ascii c)) <$> list_ascii_of_string input.

(** [hashStringToUint32(input)] *)
Definition hashStringToUint32 (input : string) : Z :=
  let hash :=
    fold_left (fun hash c => imul (xor hash c) 16777619) (charCodes input) 2166136261 in
  ushr hash 0.

(** FNV-1a on 32 bits, in unsigned arithmetic. *)
Definition fnv1a32 (codes : list Z) : Z :=
  fold_left (fun h c => (Z.lxor h c * 16777619) mod two32) codes 2166136261.

(** [mulberry32(seed)]: the state of the closure is the number [t]; [next]
    returns the numerator of its result over 2^32 and the new state.  The
    sum [t += 0x6D2B79F5] is exact here, as it is in a double for the first
    4.9 million calls. *)
Definition mulberry32 (seed : Z) : Z := ushr seed 0.

Definition next (t : Z) : Z * Z :=
  let t := t + 1831565813 in
  let x := t in
  let x := imul (xor x (ushr x 15)) (or x 1) in
  let x := xor x (x + imul (xor x (ushr x 7)) (or x 61)) in
  (ushr (xor x (ushr x 14)) 0, t).

(** The double nearest to a decimal literal, as the fraction it is. *)
Definition double_0_82 : Z * Z := (7385903388887613, 9007199254740992).
Definition double_0_95 : Z * Z := (4278419646001971, 4503599627370496).

(** [u / 2^32 < d] for a double [d] given as a fraction. *)
Definition below (u : Z) (d : Z * Z) : bool := u * d.2 <? d.1 * two32.

(** [Math.floor((u / 2^32) * k)]: the product is exact in a double for the
    factors used here. *)
Definition floorTimes (u k : Z) : Z := (u * k) / two32.

(** [generatePiiTokens()], from generator state [t]. *)
Definition generatePiiTokens (t : Z) : Z * Z :=
  let '(rand, t) := next t in
  if below rand double_0_82 then (0, t)
  else if below rand double_0_95 then
    let '(r, t) := next t in (floorTimes r 3 + 1, t)
  else
    let '(r, t) := next t in (floorTimes r 3 + 3, t).

(** [Date.UTC(year, month, date, 0, 0, 0, 0)]: a year from 0 to 99 stands
    for 1900 + year. *)
Definition DateUTC (year month date : Number) : Date :=
  match year, month, date with
  | Some y, Some m, Some dt =>
      let yr := if (0 <=? y) && (y <=? 99) then 1900 + y else y in
      TimeClip (MakeDate (MakeDay yr m dt) 0)
  | _, _, _ => None
  end.

Definition getUTCFullYear (d : Date) : Number := YearFromTime <$> d.
Definition getUTCMonth (d : Date) : Number := MonthFromTime <$> d.

(** [utcStartOfDay(date)] *)
Definition utcStartOfDay (date : Date) : Date :=
  DateUTC (getUTCFullYear date) (getUTCMonth date) (getUTCDate date).

(** [randomTimestampWithinUtcDay(utcDayStart)], with [u] the numerator of
    the value [rng()] returns. *)
Definition randomTimestampWithinUtcDay (utcDayStart : Date) (u : Z) : Date :=
  let minSeconds := 60 * 60 * 2 in
  let maxSeconds := 60 * 60 * 22 in
  let seconds := minSeconds + floorTimes u (maxSeconds - minSeconds) in
  match utcDayStart with
  | Some t => TimeClip (t + seconds * 1000)
  | None => None
  end.

(** The start of the day with index [dayIndexFromOldest] in
    [seedEvaluations(userId, totalEvaluations, days)]:
    [new Date(todayUtcStart.getTime() - offsetFromOldest * 24 * 60 * 60 * 1000)]
    with [offsetFromOldest = days - 1 - dayIndexFromOldest]. *)
Definition seedDayStart (nowMs days dayIndexFromOldest : Z) : Date :=
  let todayUtcStart := utcStartOfDay (newDate nowMs) in
  let offsetFromOldest := days - 1 - dayIndexFromOldest in
  match todayUtcStart with
  | Some t => TimeClip (t - offsetFromOldest * 24 * 60 * 60 * 1000)
  | None => None
  end.

(** The [created_at] of a row seeded for that day. *)
Definition seedCreatedAt (nowMs days dayIndexFromOldest u : Z) : option Z :=
  toISOString (randomTimestampWithinUtcDay (seedDayStart nowMs days dayIndexFromOldest) u).

End Seed.


(** ** The stat cards: [computeTrend] *)

Module Trend.

Inductive TrendDirection := up | down | flat.

Record TrendMeta := mkTrendMeta {
  deltaLabel : string;
  direction : TrendDirection
}.

(** [s.includes(sub)] *)
Fixpoint includes (sub s : string) : bool :=
  if String.prefix sub s then true
  else match s with
       | String _ s' => includes sub s'
       | EmptyString => false
       end.

(** A number is carried as the rational it is.  [fl] rounds the exact
    result of an operation to a double and [toFixedString x k] is
    [x.toFixed(k)]; both are left open. *)
Section ComputeTrend.
Variable fl : Q -> Q.
Variable toFixedString : Q -> Z -> string.

Definition computeTrend (current : Q) (previous : option Q)
    (invertTrend : option bool) (suffix : option string) : option TrendMeta :=
  match previous with
  | None => None
  | Some previous =>
      let deltaRaw := fl (current - previous)%Q in
      if Qeq_bool deltaRaw 0 then Some (mkTrendMeta "Steady" flat)
      else
        let adjustedDelta :=
          if default false invertTrend then (deltaRaw * -1)%Q else deltaRaw in
        let direction := if Qle_bool adjustedDelta 0 then down else up in
        let rounded := Qabs deltaRaw in
        let formattedDelta :=
          match suffix with
          | Some (String c s) =>
              (toFixedString rounded (if includes "%" (String c s) then 1 else 0)
               ++ String c s)%string
          | _ =>
              if Qle_bool 1000 rounded
              then (toFixedString (fl (rounded / 1000)%Q) 1 ++ "k")%string
              else toFixedString rounded 1
          end in
        Some (mkTrendMeta
                ((match direction with up => "+" | _ => "-" end)
                 ++ formattedDelta)%string
                direction)
  end.

End ComputeTrend.

End Trend.

(** ** The evaluation list: page buttons *)

Module Pager.

(** The state the buttons read: [page] and [totalPages] of the page
    component and its [loading] flag. *)
Record State := mkState {
  page : Z;
  totalPages : Z;
  loading : bool
}.

Inductive Button := Previous | Next.

(** [totalPages || 1] *)
Definition orOne (n : Z) : Z := if n =? 0 then 1 else n.

(** The [disabled] attribute of a button. *)
Definition disabled (b : Button) (st : State) : bool :=
  match b with
  | Previous => (page st =? 1) || loading st
  | Next => (page st =? totalPages st) || loading st
  end.

(** The page a button asks for in [onPageChange]. *)
Definition target (b : Button) (st : State) : Z :=
  match b with
  | Previous => Z.max 1 (page st - 1)
  | Next => Z.min (orOne (totalPages st)) (page st + 1)
  end.

(** [handlePageChange(nextPage)] *)
Definition handlePageChange (st : State) (nextPage : Z) : State :=
  if nextPage =? page st then st
  else {| page := nextPage; totalPages := totalPages st; loading := loading st |}.

(** A click; a disabled button does not fire its handler. *)
Definition click (st : State) (b : Button) : State :=
  if disabled b st then st else handlePageChange st (target b st).

(** Clicks interleaved with changes of the [loading] flag. *)
Inductive Event := Click (b : Button) | SetLoading (l : bool).

Definition step (st : State) (e : Event) : State :=
  match e with
  | Click b => click st b
  | SetLoading l => {| page := page st; totalPages := totalPages st; loading := l |}
  end.

End Pager.


(** ** The offsets of the page requests *)

(** The offsets of [k] consecutive pages from [o]. *)
Definition pageOffsets (o : Z) (k : nat) : list Z :=
  (fun i => o + Z.of_nat i * pageSize) <$> seq 0 k.

(** The number of requests for [n] matching rows: one per full page, one
    more for the page that ends the run, and never more than the loop
    header allows. *)
Definition requestCount (n : nat) : nat :=
  Nat.min loopIterations (n / Z.to_nat pageSize + 1).


(** * Calendar facts *)

Definition era_ok (doe : Z) : bool :=
  let yoe := yearOfEra doe in
  let mp := monthIndex (dayOfYear doe yoe) in
  (0 <=? yoe) && (yoe <? 400) && (0 <=? mp) && (mp <=? 11).

Fixpoint era_ok_from (n : nat) (doe : Z) : bool :=
  match n with
  | O => true
  | S n' => era_ok doe && era_ok_from n' (doe + 1)
  end.

Lemma era_ok_from_spec n : forall doe k,
  era_ok_from n doe = true -> doe <= k < doe + Z.of_nat n -> era_ok k = true.
Proof.
  induction n as [|n IH]; intros doe k Hall Hk; [lia|].
  cbn [era_ok_from] in Hall. apply andb_prop in Hall as [Hhd Htl].
  destruct (Z.eq_dec k doe) as [->|Hne]; [exact Hhd|].
  apply (IH (doe + 1)); [exact Htl | lia].
Qed.

Lemma era_ok_all : era_ok_from (Z.to_nat daysPerEra) 0 = true.
Proof. vm_compute. reflexivity. Qed.

Lemma era_bounds doe :
  0 <= doe < daysPerEra ->
  0 <= yearOfEra doe < 400 /\
  0 <= monthIndex (dayOfYear doe (yearOfEra doe)) <= 11.
Proof.
  intros Hdoe.
  assert (Hok : era_ok doe = true).
  { apply (era_ok_from_spec _ 0 doe era_ok_all).
    rewrite Z2Nat.id by (unfold daysPerEra; lia). lia. }
  unfold era_ok in Hok.
  repeat (apply andb_prop in Hok; destruct Hok as [Hok ?]).
  lia.
Qed.

Lemma days_from_civil_from_days z : days_from_civil (civil_from_days z) = z.
Proof.
  unfold civil_from_days, days_from_civil.
  set (z' := z + epochShift).
  assert (Hdoe : 0 <= z' mod daysPerEra < daysPerEra)
    by (apply Z.mod_pos_bound; reflexivity).
  destruct (era_bounds _ Hdoe) as [Hyoe Hmp].
  set (doe := z' mod daysPerEra) in *.
  set (yoe := yearOfEra doe) in *.
  set (doy := dayOfYear doe yoe) in *.
  set (mp := monthIndex doy) in *.
  set (m := if mp <? 10 then mp + 3 else mp - 9).
  assert (Hm : (if 2 <? m then m - 3 else m + 9) = mp).
  { subst m. destruct (Z.ltb_spec mp 10).
    - destruct (Z.ltb_spec 2 (mp + 3)); lia.
    - destruct (Z.ltb_spec 2 (mp - 9)); lia. }
  assert (Hy : (if m <=? 2
                then (if m <=? 2 then yoe + z' / daysPerEra * 400 + 1
                      else yoe + z' / daysPerEra * 400) - 1
                else (if m <=? 2 then yoe + z' / daysPerEra * 400 + 1
                      else yoe + z' / daysPerEra * 400))
               = yoe + z' / daysPerEra * 400).
  { destruct (m <=? 2); lia. }
  rewrite Hy, Hm.
  replace ((yoe + z' / daysPerEra * 400) / 400) with (z' / daysPerEra)
    by (apply (Z.div_unique _ 400 _ yoe); lia).
  replace ((yoe + z' / daysPerEra * 400) mod 400) with yoe
    by (apply (Z.mod_unique _ 400 (z' / daysPerEra) _); lia).
  pose proof (Z.div_mod z' daysPerEra ltac:(discriminate)) as Hdm.
  fold doe in Hdm.
  unfold doy, dayOfYear. subst z'. lia.
Qed.

Lemma civil_from_days_inj z1 z2 :
  civil_from_days z1 = civil_from_days z2 -> z1 = z2.
Proof.
  intros H. rewrite <- (days_from_civil_from_days z1), H.
  apply days_from_civil_from_days.
Qed.

Lemma civil_month_range z : 1 <= (civil_from_days z).1.2 <= 12.
Proof.
  unfold civil_from_days.
  set (z' := z + epochShift).
  assert (Hdoe : 0 <= z' mod daysPerEra < daysPerEra)
    by (apply Z.mod_pos_bound; reflexivity).
  destruct (era_bounds _ Hdoe) as [_ Hmp].
  cbn [fst snd].
  destruct (Z.ltb_spec (monthIndex (dayOfYear (z' mod daysPerEra)
                                      (yearOfEra (z' mod daysPerEra)))) 10); lia.
Qed.

Lemma days_from_civil_day y m d :
  days_from_civil (y, m, d) = days_from_civil (y, m, 1) + d - 1.
Proof. unfold days_from_civil. lia. Qed.

Lemma MakeDay_shift t k :
  MakeDay (YearFromTime t) (MonthFromTime t) (DateFromTime t + k) = DayOf t + k.
Proof.
  unfold MakeDay, YearFromTime, MonthFromTime, DateFromTime.
  pose proof (civil_month_range (DayOf t)) as Hm.
  pose proof (days_from_civil_from_days (DayOf t)) as Hrt.
  destruct (civil_from_days (DayOf t)) as [[y m] d]. cbn [fst snd] in *.
  rewrite days_from_civil_day in Hrt.
  replace ((m - 1) / 12) with 0 by (symmetry; apply Z.div_small; lia).
  replace ((m - 1) mod 12) with (m - 1) by (symmetry; apply Z.mod_small; lia).
  replace (y + 0) with y by lia.
  replace (m - 1 + 1) with m by lia.
  lia.
Qed.

Lemma MakeDate_day_time t : MakeDate (DayOf t) (TimeWithinDay t) = t.
Proof.
  unfold MakeDate, DayOf, TimeWithinDay.
  pose proof (Z.div_mod t msPerDay ltac:(discriminate)). lia.
Qed.

(** [d.setUTCDate(d.getUTCDate() + k)] moves a valid date by [k] days. *)
Lemma setUTCDate_shift t k :
  setUTCDate (Some t) (num_add (getUTCDate (Some t)) (Some k))
  = TimeClip (t + k * msPerDay).
Proof.
  cbn [setUTCDate getUTCDate num_add].
  rewrite MakeDay_shift. f_equal.
  pose proof (MakeDate_day_time t). unfold MakeDate in *. lia.
Qed.

Lemma TimeClip_Some t t' : TimeClip t = Some t' -> t' = t /\ Z.abs t <= maxTimeValue.
Proof.
  unfold TimeClip. destruct (Z.leb_spec (Z.abs t) maxTimeValue); [|discriminate].
  intros [= <-]. split; [reflexivity | assumption].
Qed.

Lemma TimeClip_valid t : Z.abs t <= maxTimeValue -> TimeClip t = Some t.
Proof.
  intros H. unfold TimeClip.
  destruct (Z.leb_spec (Z.abs t) maxTimeValue); [reflexivity | lia].
Qed.

Lemma DayOf_midnight day : DayOf (day * msPerDay) = day.
Proof. unfold DayOf. apply Z.div_mul. discriminate. Qed.

Lemma windowStart_Some nowMs days since :
  windowStart nowMs days = Some since ->
  exists d, days = Some d /\ since = startDay nowMs d * msPerDay /\
            Z.abs (DayOf nowMs * msPerDay) <= maxTimeValue /\
            Z.abs since <= maxTimeValue.
Proof.
  unfold windowStart, newDate.
  destruct (TimeClip nowMs) as [t|] eqn:Hnow; [|discriminate].
  apply TimeClip_Some in Hnow as [-> Hnow].
  cbn [setUTCHours0]. unfold MakeDate. rewrite Z.add_0_r.
  destruct (TimeClip (DayOf nowMs * msPerDay)) as [t0|] eqn:Ht0;
    [|discriminate].
  apply TimeClip_Some in Ht0 as [-> Ht0].
  destruct days as [d|]; [|cbn; discriminate].
  intros Hset. exists d.
  change (num_sub (getUTCDate (Some (DayOf nowMs * msPerDay)))
                  (num_sub (Some d) (Some 1)))
    with (num_add (getUTCDate (Some (DayOf nowMs * msPerDay)))
                  (Some (- (d - 1)))) in Hset.
  rewrite setUTCDate_shift in Hset.
  apply TimeClip_Some in Hset as [-> Hs].
  unfold startDay. repeat split; try assumption; try lia.
Qed.

Lemma windowStart_valid nowMs d :
  Z.abs nowMs <= maxTimeValue ->
  Z.abs (startDay nowMs d * msPerDay) <= maxTimeValue ->
  windowStart nowMs (Some d) = Some (startDay nowMs d * msPerDay).
Proof.
  intros Hnow Hs. unfold windowStart, newDate.
  rewrite (TimeClip_valid _ Hnow). cbn [setUTCHours0].
  unfold MakeDate. rewrite Z.add_0_r.
  assert (Ht0 : Z.abs (DayOf nowMs * msPerDay) <= maxTimeValue).
  { unfold DayOf, maxTimeValue, msPerDay in *.
    pose proof (Z.div_mod nowMs 86400000 ltac:(discriminate)).
    pose proof (Z.mod_pos_bound nowMs 86400000 ltac:(reflexivity)). lia. }
  rewrite (TimeClip_valid _ Ht0).
  change (num_sub (getUTCDate (Some (DayOf nowMs * msPerDay)))
                  (num_sub (Some d) (Some 1)))
    with (num_add (getUTCDate (Some (DayOf nowMs * msPerDay)))
                  (Some (- (d - 1)))).
  rewrite setUTCDate_shift.
  replace (DayOf nowMs * msPerDay + - (d - 1) * msPerDay)
    with (startDay nowMs d * msPerDay) by (unfold startDay; lia).
  apply TimeClip_valid. assumption.
Qed.

(** * The page loop *)

Lemma take_plus {A} (n m : nat) (l : list A) :
  take (n + m) l = take n l ++ take m (drop n l).
Proof.
  revert l. induction n as [|n IH]; intros [|x l]; cbn; try reflexivity.
  - by rewrite take_nil.
  - by rewrite IH.
Qed.

Lemma countedRows_app log1 log2 :
  countedRows (log1 ++ log2) = countedRows log1 ++ countedRows log2.
Proof. unfold countedRows. by rewrite fmap_app, concat_app. Qed.

Section Loop.
Variables (st : Store) (uid : string) (since : Z).

Lemma selectPage_ok o :
  fault st o = None ->
  selectPage st uid since o (o + pageSize - 1)
  = {| data := Some (take (Z.to_nat pageSize)
                       (drop (Z.to_nat o) (matching st uid since)));
       error := None |}.
Proof.
  intros Hf. unfold selectPage, range. rewrite Hf.
  do 3 f_equal. lia.
Qed.

Lemma selectPage_fault o to msg :
  fault st o = Some msg ->
  selectPage st uid since o to = {| data := None; error := Some msg |}.
Proof. intros Hf. unfold selectPage. by rewrite Hf. Qed.

Lemma pageLoop_run n : forall c o a,
  store c = st -> 0 <= o -> o + Z.of_nat n * pageSize = maxOffset ->
  loop_post st uid since c o a (pageLoop n c uid since o a).
Proof.
  induction n as [|n IH]; intros c o a Hst Ho Hn.
  - cbn. split; [assumption|]. exists []. rewrite app_nil_r.
    split; [reflexivity|]. split; [constructor|]. split; [reflexivity|].
    replace (Z.to_nat (maxOffset - o)) with 0%nat by lia. reflexivity.
  - assert (Hlt : o < maxOffset) by (unfold pageSize in Hn; lia).
    cbn [pageLoop]. apply Z.ltb_lt in Hlt as Hltb. rewrite Hltb.
    unfold fetchPage. rewrite Hst.
    destruct (fault st o) as [msg|] eqn:Hf.
    + rewrite (selectPage_fault _ _ _ Hf). cbn.
      split; [reflexivity|]. eexists. split; [reflexivity|].
      exists [], o. repeat split; [constructor | assumption].
    + rewrite (selectPage_ok _ Hf). cbn [error data]. unfold loop_post.
      set (M := matching st uid since).
      set (page := take (Z.to_nat pageSize) (drop (Z.to_nat o) M)).
      set (res := {| data := Some page; error := None |}).
      assert (Hcnt : countedRows [(o, res)] = page).
      { unfold countedRows. cbn. by rewrite app_nil_r. }
      assert (Hlen : (length page <= Z.to_nat pageSize)%nat)
        by (subst page; rewrite length_take; lia).
      destruct (Z.eqb_spec (Z.of_nat (length page)) 0) as [Hz|Hnz].
      { split; [reflexivity|]. exists [(o, res)]. split; [reflexivity|].
        split; [by repeat constructor|].
        assert (Hnil : page = []) by (apply length_zero_iff_nil; lia).
        rewrite Hcnt, Hnil. split; [reflexivity|].
        assert (Hd : drop (Z.to_nat o) M = []).
        { subst page. destruct (drop (Z.to_nat o) M); [reflexivity|].
          unfold pageSize in Hnil. cbn in Hnil. discriminate. }
        by rewrite Hd, take_nil. }
      destruct (Z.ltb_spec (Z.of_nat (length page)) pageSize) as [Hshort|Hfull].
      { split; [reflexivity|]. exists [(o, res)]. split; [reflexivity|].
        split; [by repeat constructor|].
        rewrite Hcnt. split; [reflexivity|].
        assert (Hd : (length (drop (Z.to_nat o) M) < Z.to_nat pageSize)%nat).
        { subst page. rewrite length_take in Hshort. lia. }
        subst page. rewrite !take_ge; [reflexivity | | lia].
        unfold pageSize in *. lia. }
      specialize (IH {| store := st; requests := requests c ++ [(o, res)] |}
                     (o + pageSize) (fold_left addEvaluation page a)
                     eq_refl ltac:(unfold pageSize; lia) ltac:(lia)).
      destruct (pageLoop n _ uid since (o + pageSize) _) as [exit c'].
      destruct IH as [Hst' [new [Hreq Hexit]]]. cbn [fst snd requests store] in *.
      split; [assumption|]. exists ((o, res) :: new).
      split; [by rewrite Hreq, <- app_assoc|].
      destruct exit as [a'|msg].
      * destruct Hexit as [Hall [Ha' Hrows]].
        split; [by constructor|].
        change ((o, res) :: new) with ([(o, res)] ++ new).
        rewrite countedRows_app, Hcnt, fold_left_app.
        split; [assumption|]. rewrite Hrows.
        replace (Z.to_nat (maxOffset - o))
          with (Z.to_nat pageSize + Z.to_nat (maxOffset - (o + pageSize)))%nat
          by (unfold pageSize in *; lia).
        rewrite take_plus, drop_drop. subst page.
        do 3 f_equal. unfold pageSize. lia.
      * destruct Hexit as [pre [o' [-> [Hpre Hfault]]]].
        exists ((o, res) :: pre), o'. repeat split; [by constructor | assumption].
Qed.
End Loop.

(** * The running totals *)

Lemma countIf_cons (P : Evaluation -> Prop) `{!forall e, Decision (P e)} e l :
  countIf P (e :: l) = (if decide (P e) then 1 else 0) + countIf P l.
Proof.
  unfold countIf. rewrite filter_cons.
  destruct (decide (P e)); cbn [length]; lia.
Qed.

Lemma countIf_nonneg (P : Evaluation -> Prop) `{!forall e, Decision (P e)} l :
  0 <= countIf P l.
Proof. unfold countIf. lia. Qed.

Lemma countIf_le_length (P : Evaluation -> Prop) `{!forall e, Decision (P e)} l :
  countIf P l <= Z.of_nat (length l).
Proof. unfold countIf. pose proof (length_filter P l). lia. Qed.

Lemma bumpDistribution_cases e d :
  bumpDistribution (score e) d
  = Dist.mk (Dist.excellent d + (if decide (isExcellent e) then 1 else 0))
            (Dist.good d + (if decide (isGood e) then 1 else 0))
            (Dist.fair d + (if decide (isFair e) then 1 else 0))
            (Dist.poor d + (if decide (isPoor e) then 1 else 0)).
Proof.
  unfold bumpDistribution.
  destruct (Z.leb_spec (pts 90) (score e));
    [|destruct (Z.leb_spec (pts 70) (score e));
      [|destruct (Z.leb_spec (pts 50) (score e))]];
  repeat case_decide; unfold isExcellent, isGood, isFair, isPoor, pts in *;
  try lia; f_equal; lia.
Qed.

Lemma fold_total l : forall a,
  total (fold_left addEvaluation l a) = total a + Z.of_nat (length l).
Proof.
  induction l as [|e l IH]; intros a; cbn [fold_left length]; [lia|].
  rewrite IH. cbn [addEvaluation total]. lia.
Qed.

Lemma fold_totalScore l : forall a,
  totalScore (fold_left addEvaluation l a) = totalScore a + sumOf score l.
Proof.
  induction l as [|e l IH]; intros a; cbn [fold_left sumOf foldr]; [lia|].
  rewrite IH. cbn [addEvaluation totalScore]. fold (sumOf score l). lia.
Qed.

Lemma fold_totalLatency l : forall a,
  totalLatency (fold_left addEvaluation l a) = totalLatency a + sumOf latency_ms l.
Proof.
  induction l as [|e l IH]; intros a; cbn [fold_left sumOf foldr]; [lia|].
  rewrite IH. cbn [addEvaluation totalLatency]. fold (sumOf latency_ms l). lia.
Qed.

Lemma fold_totalPiiRedacted l : forall a,
  totalPiiRedacted (fold_left addEvaluation l a)
  = totalPiiRedacted a + sumOf (fun e => default 0 (pii_tokens_redacted e)) l.
Proof.
  induction l as [|e l IH]; intros a; cbn [fold_left sumOf foldr]; [lia|].
  rewrite IH. cbn [addEvaluation totalPiiRedacted].
  fold (sumOf (fun e => default 0 (pii_tokens_redacted e)) l). lia.
Qed.

Lemma fold_successCount l : forall a,
  successCount (fold_left addEvaluation l a) = successCount a + countIf isSuccess l.
Proof.
  induction l as [|e l IH]; intros a; cbn [fold_left].
  - unfold countIf. cbn. lia.
  - rewrite IH, countIf_cons. cbn [addEvaluation successCount].
    destruct (Z.leb_spec (pts 70) (score e)); case_decide as Hd;
      unfold isSuccess in Hd; lia.
Qed.

Lemma fold_scoreDistribution l : forall a,
  scoreDistribution (fold_left addEvaluation l a)
  = Dist.mk (Dist.excellent (scoreDistribution a) + countIf isExcellent l)
            (Dist.good (scoreDistribution a) + countIf isGood l)
            (Dist.fair (scoreDistribution a) + countIf isFair l)
            (Dist.poor (scoreDistribution a) + countIf isPoor l).
Proof.
  induction l as [|e l IH]; intros a; cbn [fold_left].
  - unfold countIf. cbn. destruct (scoreDistribution a). cbn. f_equal; lia.
  - rewrite IH, !countIf_cons. cbn [addEvaluation scoreDistribution].
    rewrite bumpDistribution_cases. cbn [Dist.excellent Dist.good Dist.fair Dist.poor].
    f_equal; lia.
Qed.

Lemma addRows_cons b e rows :
  addRows (addRows b [e]) rows = addRows b (e :: rows).
Proof.
  unfold addRows. cbn [Bucket.count Bucket.totalScore Bucket.totalLatency
                       length sumOf foldr].
  f_equal; fold (sumOf score rows); fold (sumOf latency_ms rows); lia.
Qed.

Lemma fold_dailyMap l k : forall a,
  dailyMap (fold_left addEvaluation l a) !! k
  = bucketAfter (dailyMap a !! k) (filter (onDate k) l).
Proof.
  induction l as [|e l IH]; intros a; cbn [fold_left]; [reflexivity|].
  rewrite IH, filter_cons. cbn [addEvaluation dailyMap].
  destruct (decide (onDate k e)) as [Hk|Hk]; unfold onDate in Hk.
  - rewrite Hk, lookup_insert_eq.
    set (b := default (Bucket.mk 0 0 0) (dailyMap a !! k)).
    replace (Bucket.mk (Bucket.count b + 1) (Bucket.totalScore b + score e)
                       (Bucket.totalLatency b + latency_ms e))
      with (addRows b [e])
      by (unfold addRows; cbn; f_equal; lia).
    destruct (filter (onDate k) l) as [|e' rows] eqn:Hrows.
    + reflexivity.
    + cbn [bucketAfter default from_option Datatypes.id]. fold b. by rewrite addRows_cons.
  - by rewrite lookup_insert_ne.
Qed.

Lemma dailyMap_initial l k :
  dailyMap (fold_left addEvaluation l initialTotals) !! k
  = bucketAfter None (filter (onDate k) l).
Proof. rewrite fold_dailyMap. cbn [initialTotals dailyMap]. by rewrite lookup_empty. Qed.

(** The response built from the totals of [l] is the direct aggregate of
    [l], whatever the daily series. *)
Lemma buildStats_direct l dates ps :
  ps = directPoint l <$> dates ->
  buildStats (fold_left addEvaluation l initialTotals) ps = directStats l dates.
Proof.
  intros ->. unfold buildStats, directStats.
  rewrite fold_total, fold_totalScore, fold_totalLatency, fold_successCount,
    fold_totalPiiRedacted, fold_scoreDistribution.
  cbn [initialTotals total totalScore totalLatency successCount totalPiiRedacted
       scoreDistribution Dist.excellent Dist.good Dist.fair Dist.poor].
  rewrite !Z.add_0_l. reflexivity.
Qed.

(** The point emitted for a day is the direct aggregate of the rows of that
    day. *)
Lemma dailyPoint_direct l since idx :
  Z.abs (since + idx * msPerDay) <= maxTimeValue ->
  dailyPoint (Some since) (dailyMap (fold_left addEvaluation l initialTotals)) idx
  = Some (directPoint l (civil_from_days (DayOf (since + idx * msPerDay)))).
Proof.
  intros Hvalid. unfold dailyPoint.
  rewrite setUTCDate_shift, (TimeClip_valid _ Hvalid).
  cbn [toIsoDate toISOString]. unfold isoDatePart.
  set (date := civil_from_days (DayOf (since + idx * msPerDay))).
  rewrite dailyMap_initial. unfold directPoint.
  destruct (filter (onDate date) l) as [|e rows] eqn:Hrows.
  - reflexivity.
  - cbn [bucketAfter default]. unfold addRows.
    cbn [Bucket.count Bucket.totalScore Bucket.totalLatency].
    rewrite !Z.add_0_l.
    destruct (Z.eqb_spec (Z.of_nat (length (e :: rows))) 0) as [Hz|Hnz];
      [cbn [length] in Hz; lia | reflexivity].
Qed.

(** * The handler *)

Lemma loopIterations_exact : 0 + Z.of_nat loopIterations * pageSize = maxOffset.
Proof. reflexivity. Qed.

(** More iterations than the loop header allows change nothing: the counter
    is never what ends the loop. *)
Lemma pageLoop_fuel n : forall k c uid since o a,
  maxOffset <= o + Z.of_nat n * pageSize ->
  pageLoop (n + k) c uid since o a = pageLoop n c uid since o a.
Proof.
  induction n as [|n IH]; intros k c uid since o a Hn.
  - cbn [Nat.add pageLoop]. destruct k as [|k]; [reflexivity|].
    cbn [pageLoop]. destruct (Z.ltb_spec o maxOffset); [lia | reflexivity].
  - cbn [Nat.add pageLoop]. destruct (o <? maxOffset); [|reflexivity].
    destruct (fetchPage c uid since o (o + pageSize - 1)) as [res c1].
    destruct (error res); [reflexivity|].
    destruct (data res) as [page|]; [|reflexivity].
    destruct (Z.of_nat (length page) =? 0); [reflexivity|].
    destruct (Z.of_nat (length page) <? pageSize); [reflexivity|].
    apply IH. lia.
Qed.

Lemma handle_unauthorized w req :
  userError (auth w) <> None \/ user (auth w) = None ->
  handle w req = (JsonError 401 "Unauthorized", []).
Proof.
  unfold handle. intros [H|H].
  - destruct (userError (auth w)); [reflexivity | congruence].
  - rewrite H. destruct (userError (auth w)); reflexivity.
Qed.

Lemma handle_cases w u req :
  userError (auth w) = None -> user (auth w) = Some u ->
  match windowStart (now w) (parseDays req) with
  | None => handle w req = (JsonError 500 "Internal server error", [])
  | Some since =>
      let log := (handle w req).2 in
      (exists pre o msg,
          log = pre ++ [(o, {| data := None; error := Some msg |})] /\
          Forall okRequest pre /\ fault (db w) o = Some msg /\
          (handle w req).1 = JsonError 500 msg)
      \/
      (Forall okRequest log /\
       countedRows log
       = take (Z.to_nat maxOffset) (matching (db w) (id u) since) /\
       (handle w req).1 = finishStats (parseDays req) since (countedRows log))
  end.
Proof.
  intros He Hu. unfold handle, statsBody. rewrite He, Hu.
  destruct (windowStart (now w) (parseDays req)) as [since|] eqn:Hs;
    cbn [toISOString]; [|reflexivity].
  pose proof (pageLoop_run (db w) (id u) since loopIterations
                {| store := db w; requests := [] |} 0 initialTotals
                eq_refl ltac:(lia) loopIterations_exact) as Hrun.
  destruct (pageLoop loopIterations _ (id u) since 0 initialTotals) as [exit c'].
  destruct Hrun as [_ [new [Hreq Hexit]]]. cbn [fst snd requests app] in *.
  destruct exit as [a|msg].
  - destruct Hexit as [Hall [-> Hrows]]. right.
    destruct (arrayFromLength (parseDays req)) as [idxs|] eqn:Ha;
      [destruct (mapM _ idxs) as [ps|] eqn:Hm|];
      cbn [fst snd]; rewrite Hreq;
      (split; [assumption|]); (split; [by rewrite Hrows, Z.sub_0_r|]);
      unfold finishStats; cbv zeta; rewrite Ha, ?Hm; reflexivity.
  - destruct Hexit as [pre [o [-> [Hpre Hfault]]]]. left.
    cbn [fst snd]. rewrite Hreq. exists pre, o, msg. by repeat split.
Qed.

Lemma mapM_fmap_inv {A B C} (f : B -> option C) (g : A -> B) (h : A -> C)
    (l : list A) ps :
  mapM f (g <$> l) = Some ps ->
  (forall x y, x ∈ l -> f (g x) = Some y -> y = h x) ->
  ps = h <$> l.
Proof.
  revert ps. induction l as [|x l IH]; intros ps Hm Hf; cbn in Hm.
  - by injection Hm as <-.
  - destruct (f (g x)) as [y|] eqn:Hy; [|discriminate]. cbn in Hm.
    destruct (mapM f (g <$> l)) as [k|] eqn:Hk; [|discriminate]. cbn in Hm.
    injection Hm as <-. cbn. f_equal.
    + apply Hf; [left | assumption].
    + apply IH; [reflexivity|]. intros x' y' Hin. apply Hf. by right.
Qed.


Lemma dailyPoint_cases l since idx :
  dailyPoint (Some since) (dailyMap (fold_left addEvaluation l initialTotals)) idx
  = match TimeClip (since + idx * msPerDay) with
    | Some t => Some (directPoint l (civil_from_days (DayOf t)))
    | None => None
    end.
Proof.
  destruct (TimeClip (since + idx * msPerDay)) as [t|] eqn:Ht.
  - apply TimeClip_Some in Ht as [-> Ht]. by apply dailyPoint_direct.
  - unfold dailyPoint. by rewrite setUTCDate_shift, Ht.
Qed.

Lemma DayOf_shift sd idx : DayOf (sd * msPerDay + idx * msPerDay) = sd + idx.
Proof. rewrite <- Z.mul_add_distr_r. apply DayOf_midnight. Qed.

Lemma arrayFromLength_Some d idxs :
  arrayFromLength (Some d) = Some idxs ->
  idxs = Z.of_nat <$> seq 0 (Z.to_nat d).
Proof.
  unfold arrayFromLength. cbn [default from_option Datatypes.id].
  destruct (Z.max 0 d <=? 4294967295); [|discriminate].
  intros [= <-]. do 2 f_equal. lia.
Qed.

Lemma finishStats_inv nowMs d rows s :
  finishStats (Some d) (startDay nowMs d * msPerDay) rows = JsonData s ->
  s = directStats rows (windowDates nowMs d).
Proof.
  unfold finishStats. cbv zeta.
  destruct (arrayFromLength (Some d)) as [idxs|] eqn:Ha; [|discriminate].
  apply arrayFromLength_Some in Ha as ->.
  destruct (mapM _ _) as [ps|] eqn:Hm; [|discriminate].
  intros [= <-]. apply buildStats_direct. unfold windowDates.
  apply (mapM_fmap_inv _ _
           (fun i => directPoint rows (civil_from_days (startDay nowMs d + Z.of_nat i)))
           _ _) in Hm.
  - rewrite Hm. by rewrite <- list_fmap_compose.
  - intros i y _. rewrite dailyPoint_cases.
    destruct (TimeClip _) as [t|] eqn:Ht; [|discriminate].
    apply TimeClip_Some in Ht as [-> _]. rewrite DayOf_shift. congruence.
Qed.


(** ** Successful and failed responses *)

Lemma GET_data_inv w req s :
  GET w req = JsonData s ->
  exists u d,
    userError (auth w) = None /\ user (auth w) = Some u /\
    parseDays req = Some d /\
    Forall okRequest (pageRequests w req) /\
    countedRows (pageRequests w req)
    = take (Z.to_nat maxOffset)
           (matching (db w) (id u) (startDay (now w) d * msPerDay)) /\
    s = directStats (countedRows (pageRequests w req)) (windowDates (now w) d).
Proof.
  unfold GET, pageRequests. intros Hget.
  destruct (userError (auth w)) as [e|] eqn:He.
  { rewrite handle_unauthorized in Hget; [discriminate | left; congruence]. }
  destruct (user (auth w)) as [u|] eqn:Hu.
  2:{ rewrite handle_unauthorized in Hget; [discriminate | by right]. }
  pose proof (handle_cases w u req He Hu) as Hc.
  destruct (windowStart (now w) (parseDays req)) as [since|] eqn:Hs.
  2:{ rewrite Hc in Hget. discriminate. }
  apply windowStart_Some in Hs as [d [Hd [-> _]]].
  cbv zeta in Hc. destruct Hc as [[pre [o [msg [_ [_ [_ Hr]]]]]]|[Hall [Hrows Hr]]].
  { rewrite Hr in Hget. discriminate. }
  exists u, d. rewrite Hget, Hd in Hr. symmetry in Hr.
  apply finishStats_inv in Hr. by repeat split.
Qed.


Lemma GET_failed w req o r msg :
  (o, r) ∈ pageRequests w req -> error r = Some msg ->
  GET w req = JsonError 500 msg.
Proof.
  unfold GET, pageRequests. intros Hin Herr.
  destruct (userError (auth w)) as [e|] eqn:He.
  { rewrite handle_unauthorized in Hin by (left; congruence). inversion Hin. }
  destruct (user (auth w)) as [u|] eqn:Hu.
  2:{ rewrite handle_unauthorized in Hin by (by right). inversion Hin. }
  pose proof (handle_cases w u req He Hu) as Hc.
  destruct (windowStart (now w) (parseDays req)) as [since|] eqn:Hs.
  2:{ rewrite Hc in Hin. inversion Hin. }
  cbv zeta in Hc.
  destruct Hc as [[pre [o' [msg' [Hlog [Hpre [_ Hr]]]]]]|[Hall _]].
  - rewrite Hlog in Hin. apply elem_of_app in Hin as [Hin|Hin].
    + rewrite Forall_forall in Hpre. specialize (Hpre _ Hin).
      unfold okRequest in Hpre. cbn in Hpre. congruence.
    + apply list_elem_of_singleton in Hin. injection Hin as -> ->.
      cbn in Herr. injection Herr as ->. exact Hr.
  - rewrite Forall_forall in Hall. specialize (Hall _ Hin).
    unfold okRequest in Hall. cbn in Hall. congruence.
Qed.

(** * The rows that are read *)

Lemma matching_elem st uid since e :
  e ∈ matching st uid since <-> e ∈ evaluations st /\ matches uid since e.
Proof.
  unfold matching. rewrite merge_sort_Permutation, list_elem_of_filter. tauto.
Qed.

Lemma matching_Permutation st uid since :
  matching st uid since ≡ₚ filter (matches uid since) (evaluations st).
Proof. apply merge_sort_Permutation. Qed.

#[global] Instance created_le_total : Total created_le.
Proof. intros a b. unfold created_le. lia. Qed.


Lemma counted_elem st uid since n e :
  e ∈ take n (matching st uid since) ->
  e ∈ evaluations st /\ user_id e = uid /\ since <= created_at e.
Proof.
  intros Hin. apply subseteq_take in Hin.
  apply matching_elem in Hin as [Hin [Hu Hs]]. auto.
Qed.

Lemma filter_none (P : Evaluation -> Prop) `{!forall e, Decision (P e)}
    (l : list Evaluation) :
  (forall e, e ∈ l -> ~ P e) -> filter P l = [].
Proof.
  induction l as [|e l IH]; intros Hall; [reflexivity|].
  rewrite filter_cons_False by (apply Hall; left).
  apply IH. intros e' Hin. apply Hall. by right.
Qed.

Lemma filter_all (P : Evaluation -> Prop) `{!forall e, Decision (P e)}
    (l : list Evaluation) :
  (forall e, e ∈ l -> P e) -> filter P l = l.
Proof.
  induction l as [|e l IH]; intros Hall; [reflexivity|].
  rewrite filter_cons_True by (apply Hall; left).
  f_equal. apply IH. intros e' Hin. apply Hall. by right.
Qed.

(** * The daily series *)

Lemma directPoint_date l date : Point.date (directPoint l date) = date.
Proof. unfold directPoint. by destruct (_ =? 0). Qed.

Lemma directPoint_count l date :
  Point.count (directPoint l date) = countIf (onDate date) l.
Proof.
  unfold directPoint, countIf.
  destruct (Z.eqb_spec (Z.of_nat (length (filter (onDate date) l))) 0) as [->|];
    reflexivity.
Qed.

Lemma directPoint_empty l date :
  (forall e, e ∈ l -> ~ onDate date e) ->
  directPoint l date = Point.mk date 0 0 0.
Proof. intros Hno. unfold directPoint. by rewrite filter_none. Qed.

Lemma windowDates_lookup nowMs d i date :
  windowDates nowMs d !! i = Some date <->
  date = civil_from_days (startDay nowMs d + Z.of_nat i) /\ (i < Z.to_nat d)%nat.
Proof.
  unfold windowDates. rewrite list_lookup_fmap_Some. split.
  - intros [j [-> Hj]]. apply lookup_seq in Hj as [Hj Hlt].
    cbn in Hj. subst j. auto.
  - intros [-> Hlt]. exists i. split; [reflexivity|].
    apply lookup_seq. auto.
Qed.

Lemma windowDates_length nowMs d : length (windowDates nowMs d) = Z.to_nat d.
Proof. unfold windowDates. by rewrite length_fmap, length_seq. Qed.

Lemma dailyTrends_lookup l nowMs d i p :
  Stats.dailyTrends (directStats l (windowDates nowMs d)) !! i = Some p <->
  p = directPoint l (civil_from_days (startDay nowMs d + Z.of_nat i)) /\
  (i < Z.to_nat d)%nat.
Proof.
  cbn [directStats Stats.dailyTrends]. rewrite list_lookup_fmap_Some. split.
  - intros [date [-> Hd]]. apply windowDates_lookup in Hd as [-> Hlt]. auto.
  - intros [-> Hlt]. eexists. split; [reflexivity|].
    apply windowDates_lookup. auto.
Qed.

(** C1: for positive [days = d] a successful response carries exactly [d]
    daily points, one per UTC calendar day: each date is the calendar day
    after the one before it, the last one is today (UTC), and a day on
    which the tenant has no record is present with count, avgScore and
    avgLatency all 0. *)
Theorem daily_series_shape w req d s :
  parseDays req = Some d -> 0 < d -> GET w req = JsonData s ->
  length (Stats.dailyTrends s) = Z.to_nat d /\
  (forall i p q,
      Stats.dailyTrends s !! i = Some p ->
      Stats.dailyTrends s !! S i = Some q ->
      days_from_civil (Point.date q) = days_from_civil (Point.date p) + 1) /\
  (exists p, last (Stats.dailyTrends s) = Some p /\
             Point.date p = isoDatePart (now w)) /\
  (forall p u,
      p ∈ Stats.dailyTrends s -> user (auth w) = Some u ->
      (forall e, e ∈ evaluations (db w) -> user_id e = id u ->
                 ~ onDate (Point.date p) e) ->
      p = Point.mk (Point.date p) 0 0 0).
Proof.
  intros Hd Hpos Hget.
  apply GET_data_inv in Hget as [u [d' [_ [Hu [Hd' [_ [Hrows ->]]]]]]].
  assert (d' = d) as -> by congruence.
  set (L := countedRows (pageRequests w req)) in *.
  split; [|split; [|split]].
  - cbn [directStats Stats.dailyTrends]. by rewrite length_fmap, windowDates_length.
  - intros i p q Hp Hq.
    apply dailyTrends_lookup in Hp as [-> _].
    apply dailyTrends_lookup in Hq as [-> _].
    rewrite !directPoint_date, !days_from_civil_from_days. lia.
  - exists (directPoint L (isoDatePart (now w))). split.
    + rewrite last_lookup. apply dailyTrends_lookup.
      cbn [directStats Stats.dailyTrends].
      rewrite length_fmap, windowDates_length. split; [|lia].
      unfold isoDatePart, startDay. do 2 f_equal. lia.
    + apply directPoint_date.
  - intros p u' Hp Hu' Hno.
    assert (u' = u) as -> by congruence.
    apply list_elem_of_lookup in Hp as [i Hp].
    apply dailyTrends_lookup in Hp as [-> _].
    rewrite directPoint_date in *. apply directPoint_empty.
    intros e He. subst L. rewrite Hrows in He.
    apply counted_elem in He as [He [Hid _]]. by apply Hno.
Qed.

Lemma daily_series_shape_witness :
  exists s, GET sampleWorld (mkRequest None) = JsonData s /\
            length (Stats.dailyTrends s) = 7%nat.
Proof.
  eexists. split; [vm_compute; reflexivity|].
  refine (proj1 (daily_series_shape sampleWorld (mkRequest None) 7 _ _ _ _));
    [reflexivity | lia | vm_compute; reflexivity].
Defined.

(** * Counts *)

Lemma countIf_nil (P : Evaluation -> Prop) `{!forall e, Decision (P e)} :
  countIf P [] = 0.
Proof. reflexivity. Qed.

Lemma countIf_all (P : Evaluation -> Prop) `{!forall e, Decision (P e)}
    (l : list Evaluation) :
  (forall e, e ∈ l -> P e) -> countIf P l = Z.of_nat (length l).
Proof. intros Hall. unfold countIf. by rewrite filter_all. Qed.

Lemma onDate_civil k e :
  onDate (civil_from_days k) e <-> DayOf (created_at e) = k.
Proof.
  unfold onDate, dateKeyFromCreatedAt, isoDatePart. split.
  - apply civil_from_days_inj.
  - by intros ->.
Qed.

Lemma countIf_inDays_succ lo n l :
  countIf (inDays lo (lo + Z.of_nat (S n))) l
  = countIf (inDays lo (lo + Z.of_nat n)) l
    + countIf (onDate (civil_from_days (lo + Z.of_nat n))) l.
Proof.
  induction l as [|e l IH]; [reflexivity|].
  rewrite !countIf_cons, IH.
  pose proof (onDate_civil (lo + Z.of_nat n) e) as Hon.
  destruct (decide (onDate (civil_from_days (lo + Z.of_nat n)) e)) as [Ho|Ho];
    rewrite Hon in Ho; repeat case_decide; unfold inDays in *; lia.
Qed.

Lemma sumCounts_app ps qs : sumCounts (ps ++ qs) = sumCounts ps + sumCounts qs.
Proof.
  induction ps as [|p ps IH]; [reflexivity|].
  change (Point.count p + sumCounts (ps ++ qs)
          = Point.count p + sumCounts ps + sumCounts qs).
  lia.
Qed.

Lemma sumCounts_window l lo n :
  sumCounts (directPoint l <$>
               ((fun i => civil_from_days (lo + Z.of_nat i)) <$> seq 0 n))
  = countIf (inDays lo (lo + Z.of_nat n)) l.
Proof.
  induction n as [|n IH].
  - cbn [seq fmap list_fmap sumCounts foldr]. symmetry.
    unfold countIf. rewrite filter_none; [reflexivity|].
    intros e _. unfold inDays. lia.
  - rewrite seq_S, !fmap_app, sumCounts_app, IH, countIf_inDays_succ.
    cbn [fmap list_fmap sumCounts foldr Nat.add].
    rewrite directPoint_count. lia.
Qed.

Lemma DayOf_lower day t : day * msPerDay <= t -> day <= DayOf t.
Proof.
  intros H. unfold DayOf. apply Z.div_le_lower_bound; [reflexivity | lia].
Qed.

(** C4, amended: when no record of the tenant is dated after today (UTC),
    the counts of the daily series add up to [totalEvals], for every
    positive [days]. *)
Theorem daily_counts_sum_to_total w req d s :
  parseDays req = Some d -> 0 < d -> GET w req = JsonData s ->
  (forall u e, user (auth w) = Some u -> e ∈ evaluations (db w) ->
               user_id e = id u -> DayOf (created_at e) <= DayOf (now w)) ->
  sumCounts (Stats.dailyTrends s) = Stats.totalEvals s.
Proof.
  intros Hd Hpos Hget Hpast.
  apply GET_data_inv in Hget as [u [d' [_ [Hu [Hd' [_ [Hrows ->]]]]]]].
  assert (d' = d) as -> by congruence.
  set (L := countedRows (pageRequests w req)) in *.
  cbn [directStats Stats.dailyTrends Stats.totalEvals]. unfold windowDates.
  rewrite sumCounts_window. apply countIf_all.
  intros e He. subst L. rewrite Hrows in He.
  apply counted_elem in He as [He [Hid Hs]].
  specialize (Hpast u e Hu He Hid). apply DayOf_lower in Hs.
  unfold inDays, startDay in *. lia.
Qed.

Lemma daily_counts_sum_to_total_witness :
  exists s, GET sampleWorld (daysRequest "30") = JsonData s /\
            sumCounts (Stats.dailyTrends s) = Stats.totalEvals s.
Proof.
  eexists. split; [vm_compute; reflexivity|].
  refine (daily_counts_sum_to_total sampleWorld (daysRequest "30") 30 _ _ _ _ _);
    [reflexivity | lia | vm_compute; reflexivity |].
  intros u e _ He _. revert e He. apply Forall_forall.
  repeat constructor; vm_compute; discriminate.
Defined.

(** C4 as stated fails: a record dated after today is in [totalEvals] and
    in no daily point. *)
Lemma daily_counts_sum_counterexample :
  exists s, GET futureWorld (daysRequest "1") = JsonData s /\
            Stats.totalEvals s = 1 /\ sumCounts (Stats.dailyTrends s) = 0.
Proof. eexists. split; [vm_compute; reflexivity|]. split; reflexivity. Qed.

(** * Score buckets *)






(** * Order independence of the direct aggregate *)

Lemma sumOf_Permutation f l1 l2 : l1 ≡ₚ l2 -> sumOf f l1 = sumOf f l2.
Proof.
  induction 1 as [|x l1 l2 _ IH|x y l|l1 l2 l3 _ IH1 _ IH2];
    cbn [sumOf foldr] in *; try fold (sumOf f l1); try fold (sumOf f l2);
    try fold (sumOf f l); lia.
Qed.




(** * Pagination against direct aggregation *)



(** * The request log *)








(** * The loop ceiling *)










(** * The window *)




(** * Tenant isolation *)

Lemma matching_tenant st uid since :
  matching st uid since
  = merge_sort created_le
      (filter (fun e => since <= created_at e)
              (filter (fun e => user_id e = uid) (evaluations st))).
Proof.
  unfold matching. f_equal. rewrite list_filter_filter.
  apply list_filter_iff. intros e. unfold matches. tauto.
Qed.

Lemma pageLoop_ext uid since n : forall c1 c2 o a,
  requests c1 = requests c2 ->
  (forall from to, selectPage (store c1) uid since from to
                   = selectPage (store c2) uid since from to) ->
  (pageLoop n c1 uid since o a).1 = (pageLoop n c2 uid since o a).1 /\
  requests (pageLoop n c1 uid since o a).2
  = requests (pageLoop n c2 uid since o a).2.
Proof.
  induction n as [|n IH]; intros c1 c2 o a Hreq Hsel; cbn [pageLoop].
  - by split.
  - destruct (o <? maxOffset); [|by split].
    unfold fetchPage. rewrite (Hsel o (o + pageSize - 1)), Hreq.
    destruct (error _); [by split|].
    destruct (data _) as [page|]; [|by split].
    destruct (_ =? 0); [by split|].
    destruct (_ <? pageSize); [by split|].
    apply IH; [reflexivity | exact Hsel].
Qed.

(** C5: the response depends on the store only through the rows of the
    requesting tenant: two stores with the same rows for that tenant, and
    any other rows, give the same response. *)
Theorem tenant_isolation w1 w2 req :
  now w1 = now w2 -> auth w1 = auth w2 ->
  (forall o, fault (db w1) o = fault (db w2) o) ->
  (forall u, user (auth w1) = Some u ->
             filter (fun e => user_id e = id u) (evaluations (db w1))
             = filter (fun e => user_id e = id u) (evaluations (db w2))) ->
  GET w1 req = GET w2 req.
Proof.
  intros Hnow Hauth Hfault Hrows. unfold GET, handle. rewrite <- Hauth.
  destruct (userError (auth w1)); [reflexivity|].
  destruct (user (auth w1)) as [u|] eqn:Hu; [|reflexivity].
  unfold statsBody. rewrite <- Hnow.
  destruct (toISOString _) as [since|]; [|reflexivity].
  destruct (pageLoop_ext (id u) since loopIterations
              {| store := db w1; requests := [] |}
              {| store := db w2; requests := [] |} 0 initialTotals eq_refl)
    as [Hexit Hlog].
  { intros from to. cbn [store]. unfold selectPage.
    by rewrite Hfault, !matching_tenant, (Hrows u eq_refl). }
  destruct (pageLoop loopIterations {| store := db w1; requests := [] |} _ _ _ _)
    as [exit1 c1].
  destruct (pageLoop loopIterations {| store := db w2; requests := [] |} _ _ _ _)
    as [exit2 c2].
  cbn [fst snd] in *. subst exit2.
  destruct exit1 as [a|msg]; [|reflexivity].
  destruct (arrayFromLength _); [|reflexivity].
  destruct (mapM _ _); reflexivity.
Qed.

Lemma tenant_isolation_witness :
  GET sampleWorld (mkRequest None)
  = GET (mkWorld clock aliceAuth
           (mkStore (mkEvaluation "carol" clock (pts 10) 9 None
                       :: filter (fun e => user_id e = "alice"%string)
                                 (evaluations (db sampleWorld)))
                    noFault))
        (mkRequest None).
Proof.
  apply tenant_isolation; [reflexivity | reflexivity | reflexivity |].
  intros u [= <-]. vm_compute. reflexivity.
Defined.

(** * Failures *)

(** C6: if a page request of the run comes back with an error, the response
    is the single error response carrying that message, and no statistics
    payload; an empty store, by contrast, gives a payload of zeros. *)
Theorem fetch_error_aborts w req o r msg :
  (o, r) ∈ pageRequests w req -> error r = Some msg ->
  GET w req = JsonError 500 msg /\ (forall s, GET w req <> JsonData s).
Proof.
  intros Hin Herr. pose proof (GET_failed w req o r msg Hin Herr) as Hget.
  split; [assumption|]. intros s. rewrite Hget. discriminate.
Qed.

Lemma fetch_error_aborts_witness :
  GET faultyWorld (mkRequest None) = JsonError 500 "connection reset" /\
  (forall s, GET faultyWorld (mkRequest None) <> JsonData s).
Proof.
  apply (fetch_error_aborts faultyWorld (mkRequest None) 0
           {| data := None; error := Some "connection reset"%string |}).
  - vm_compute. left.
  - reflexivity.
Defined.

Lemma empty_store_is_not_an_error :
  GET emptyWorld (daysRequest "1")
  = JsonData (Stats.mk 0 0 0 0 0 [Point.mk (2023, 11, 14) 0 0 0] (Dist.mk 0 0 0 0)).
Proof. vm_compute. reflexivity. Qed.

(** * The [days] parameter *)






(** * The request cache *)

(** C9: with [ttlMs] zero or negative [cachedFetch] makes the network call
    whatever the cache holds for the key: the outcome is the one of the
    network, never marked as coming from the cache, and the cache is
    left as it was. *)
Theorem zero_ttl_always_fetches net nowMs url options ttlMs st :
  ttlMs <= 0 ->
  let key := Cache.cacheKey url options in
  let out := Cache.cachedFetch net nowMs url options ttlMs st in
  Cache.networkCalls out.2 = Cache.networkCalls st ++ [key] /\
  Cache.entries out.2 = Cache.entries st /\
  out.1 = match net key with
          | Cache.Responded p => Cache.Resolved p false
          | Cache.NetworkFailure reason => Cache.Rejected reason
          end.
Proof.
  intros Httl key out. subst out. unfold Cache.cachedFetch. fold key.
  destruct (Z.leb_spec ttlMs 0) as [_|Hpos]; [|lia].
  unfold Cache.callNetwork. by destruct (net key).
Qed.

Lemma zero_ttl_always_fetches_witness :
  let key := Cache.cacheKey "/api/config" None in
  let cached := Cache.mkPayload 200 "stale" in
  let st := Cache.mkState {[ key := Cache.mkEntry cached 5000 ]} [] in
  let out := Cache.cachedFetch (fun _ => Cache.Responded (Cache.mkPayload 200 "fresh"))
               1000 "/api/config" None 0 st in
  Cache.isFresh 1000 (Cache.mkEntry cached 5000) = true /\
  Cache.networkCalls out.2 = [key] /\
  Cache.entries out.2 = Cache.entries st /\
  out.1 = Cache.Resolved (Cache.mkPayload 200 "fresh") false.
Proof.
  intros key cached st out. split; [reflexivity|].
  apply (zero_ttl_always_fetches
           (fun _ => Cache.Responded (Cache.mkPayload 200 "fresh"))
           1000 "/api/config" None 0 st).
  lia.
Defined.

(** * Further properties of the statistics handler *)

(** X1: the window start is defined exactly when [days] is a number and
    both the clock and the start are within the range of [Date]; it is then
    the UTC midnight [days - 1] days before the midnight that begins today,
    whatever month or year boundary lies in between. *)
Theorem window_start_midnight nowMs days since :
  windowStart nowMs days = Some since <->
  exists d, days = Some d /\
            since = (DayOf nowMs - (d - 1)) * msPerDay /\
            TimeWithinDay since = 0 /\
            days_from_civil (isoDatePart since)
            = days_from_civil (isoDatePart nowMs) - (d - 1) /\
            Z.abs nowMs <= maxTimeValue /\ Z.abs since <= maxTimeValue.
Proof.
  split.
  - intros Hs.
    assert (Hnow : Z.abs nowMs <= maxTimeValue).
    { unfold windowStart, newDate in Hs.
      destruct (TimeClip nowMs) as [t|] eqn:Ht; [|discriminate].
      by apply TimeClip_Some in Ht as [_ Ht]. }
    apply windowStart_Some in Hs as [d [-> [-> [_ Hvalid]]]].
    exists d. unfold startDay in *. split; [reflexivity|]. split; [reflexivity|].
    split; [unfold TimeWithinDay; apply Z.mod_mul; discriminate|].
    split; [|by split].
    unfold isoDatePart. by rewrite !days_from_civil_from_days, DayOf_midnight.
  - intros [d [-> [-> [_ [_ [Hnow Hvalid]]]]]].
    by apply windowStart_valid.
Qed.

Lemma window_start_midnight_witness :
  isoDatePart clock = (2023, 11, 14) /\
  exists since, windowStart clock (Some 30) = Some since /\
                isoDatePart since = (2023, 10, 16) /\ TimeWithinDay since = 0.
Proof.
  split; [reflexivity|].
  assert (Hs : exists since, windowStart clock (Some 30) = Some since)
    by (eexists; vm_compute; reflexivity).
  destruct Hs as [since Hs]. exists since.
  destruct (proj1 (window_start_midnight clock (Some 30) since) Hs)
    as [d [Hd [Hsince [Hmid _]]]].
  split; [exact Hs|]. split; [|exact Hmid].
  injection Hd as <-. subst since. vm_compute. reflexivity.
Defined.

(** X2: without an authenticated user the handler answers 401 and issues
    no page request, whatever the request and the store. *)
Theorem unauthenticated_is_rejected w req :
  userError (auth w) <> None \/ user (auth w) = None ->
  GET w req = JsonError 401 "Unauthorized" /\ pageRequests w req = [].
Proof.
  intros H. unfold GET, pageRequests. by rewrite (handle_unauthorized w req H).
Qed.

Lemma unauthenticated_is_rejected_witness :
  GET (mkWorld clock (mkAuthResult None None) (db sampleWorld)) (mkRequest None)
  = JsonError 401 "Unauthorized" /\
  pageRequests (mkWorld clock (mkAuthResult None None) (db sampleWorld))
               (mkRequest None) = [].
Proof. apply unauthenticated_is_rejected. right. reflexivity. Defined.

(** X3: the run stops at the first page request that fails: either every
    request of the run succeeded, or exactly the last one failed, and the
    response is the 500 response with the message of that request. *)
Theorem first_failure_ends_run w req :
  Forall okRequest (pageRequests w req) \/
  exists pre o msg,
    pageRequests w req = pre ++ [(o, {| data := None; error := Some msg |})] /\
    Forall okRequest pre /\ fault (db w) o = Some msg /\
    GET w req = JsonError 500 msg.
Proof.
  unfold GET, pageRequests.
  destruct (userError (auth w)) as [e|] eqn:He.
  { left. rewrite handle_unauthorized by (left; congruence). constructor. }
  destruct (user (auth w)) as [u|] eqn:Hu.
  2:{ left. rewrite handle_unauthorized by (by right). constructor. }
  pose proof (handle_cases w u req He Hu) as Hc.
  destruct (windowStart (now w) (parseDays req)) as [since|].
  2:{ left. rewrite Hc. constructor. }
  cbv zeta in Hc. destruct Hc as [Hfail|[Hall _]]; [right | left]; assumption.
Qed.

(** X8: when the window start falls outside the range of [Date], as for a
    [days] of hundreds of millions, the handler answers with the generic
    500 response and issues no page request. *)
Theorem window_out_of_range w req u d :
  userError (auth w) = None -> user (auth w) = Some u ->
  parseDays req = Some d ->
  maxTimeValue < Z.abs (startDay (now w) d * msPerDay) ->
  GET w req = JsonError 500 "Internal server error" /\ pageRequests w req = [].
Proof.
  intros He Hu Hd Hout.
  assert (Hnone : windowStart (now w) (Some d) = None).
  { destruct (windowStart (now w) (Some d)) as [since|] eqn:Hs; [|reflexivity].
    apply windowStart_Some in Hs as [d' [[= <-] [-> [_ Hvalid]]]]. lia. }
  pose proof (handle_cases w u req He Hu) as Hc.
  rewrite Hd, Hnone in Hc. unfold GET, pageRequests. by rewrite Hc.
Qed.

Lemma window_out_of_range_witness :
  GET sampleWorld (daysRequest "200000000")
  = JsonError 500 "Internal server error" /\
  pageRequests sampleWorld (daysRequest "200000000") = [].
Proof.
  apply (window_out_of_range sampleWorld (daysRequest "200000000")
           (mkUser "alice") 200000000); [reflexivity | reflexivity | reflexivity |].
  vm_compute. reflexivity.
Defined.

(** * The number of page requests *)

Lemma pageOffsets_S o k :
  pageOffsets o (S k) = o :: pageOffsets (o + pageSize) k.
Proof.
  unfold pageOffsets. cbn [seq fmap list_fmap]. f_equal; [lia|].
  rewrite <- fmap_S_seq, <- list_fmap_compose.
  apply list_fmap_ext. intros _ i _. cbn. lia.
Qed.

Lemma pageLoop_offsets st uid since :
  (forall o, fault st o = None) ->
  forall n c o a,
    store c = st -> 0 <= o -> o + Z.of_nat n * pageSize = maxOffset ->
    (requests (pageLoop n c uid since o a).2).*1
    = (requests c).*1
      ++ pageOffsets o
           (Nat.min n (length (drop (Z.to_nat o) (matching st uid since))
                       / Z.to_nat pageSize + 1)).
Proof.
  intros Hnf. induction n as [|n IH]; intros c o a Hst Ho Hn.
  - cbn. by rewrite app_nil_r.
  - assert (Hlt : o < maxOffset) by (unfold pageSize in Hn; lia).
    cbn [pageLoop]. apply Z.ltb_lt in Hlt as Hltb. rewrite Hltb.
    unfold fetchPage. rewrite Hst, (selectPage_ok st uid since o (Hnf o)).
    cbn [error data].
    set (M := matching st uid since) in *.
    set (rest := drop (Z.to_nat o) M).
    set (page := take (Z.to_nat pageSize) rest).
    assert (Hlen : length page = Nat.min (Z.to_nat pageSize) (length rest))
      by (subst page; apply length_take).
    assert (HK : Z.to_nat pageSize = 1000%nat) by reflexivity.
    assert (Hone : forall r : PageResult,
               (length rest < 1000)%nat ->
               (requests c ++ [(o, r)]).*1
               = (requests c).*1
                 ++ pageOffsets o
                      (Nat.min (S n) (length rest / Z.to_nat pageSize + 1))).
    { intros r Hshort. rewrite HK, Nat.div_small by exact Hshort.
      replace (Nat.min (S n) (0 + 1)) with 1%nat by lia.
      rewrite fmap_app. cbn. do 3 f_equal. lia. }
    destruct (Z.eqb_spec (Z.of_nat (length page)) 0) as [Hz|Hnz].
    { cbn [snd requests]. apply Hone. lia. }
    destruct (Z.ltb_spec (Z.of_nat (length page)) pageSize) as [Hshort|Hfull].
    { cbn [snd requests]. apply Hone. unfold pageSize in Hshort. lia. }
    rewrite IH; [| reflexivity | unfold pageSize; lia | lia].
    cbn [requests]. rewrite fmap_app, <- app_assoc. f_equal.
    cbn [fmap list_fmap fst app].
    assert (Hrest : length (drop (Z.to_nat (o + pageSize)) M)
                    = (length rest - 1000)%nat).
    { subst rest. rewrite !length_drop. unfold pageSize. lia. }
    assert (Hge : (1000 <= length rest)%nat) by (unfold pageSize in Hfull; lia).
    rewrite Hrest, HK.
    replace (length rest / 1000)%nat with (S ((length rest - 1000) / 1000)).
    2:{ replace (length rest) with ((length rest - 1000) + 1 * 1000)%nat at 2 by lia.
        rewrite Nat.div_add by lia. lia. }
    replace (Nat.min (S n) (S ((length rest - 1000) / 1000) + 1))
      with (S (Nat.min n ((length rest - 1000) / 1000 + 1))) by lia.
    by rewrite pageOffsets_S.
Qed.

(** X4: when no page request fails, the handler asks for the pages at
    offsets 0, 1000, 2000, ... in this order: one request per full page of
    matching rows and one more that ends the run, so a number of rows that
    is an exact multiple of the page size costs one request for an empty
    page; never more than 100 requests. *)
Theorem page_requests_offsets w req u d :
  userError (auth w) = None -> user (auth w) = Some u ->
  parseDays req = Some d ->
  Z.abs (now w) <= maxTimeValue ->
  Z.abs (startDay (now w) d * msPerDay) <= maxTimeValue ->
  (forall o, fault (db w) o = None) ->
  (pageRequests w req).*1
  = pageOffsets 0
      (requestCount
         (length (filter (matches (id u) (startDay (now w) d * msPerDay))
                         (evaluations (db w))))).
Proof.
  intros He Hu Hd Hnow Hstart Hfault.
  pose proof (pageLoop_offsets (db w) (id u) (startDay (now w) d * msPerDay)
                Hfault loopIterations {| store := db w; requests := [] |} 0
                initialTotals eq_refl ltac:(lia) loopIterations_exact) as Hoff.
  cbn [requests fmap list_fmap app] in Hoff.
  change (Z.to_nat 0) with 0%nat in Hoff. rewrite drop_0 in Hoff.
  rewrite (Permutation_length (matching_Permutation _ _ _)) in Hoff.
  unfold requestCount. rewrite <- Hoff. clear Hoff.
  unfold pageRequests, handle, statsBody.
  rewrite He, Hu, Hd, (windowStart_valid _ _ Hnow Hstart). cbn [toISOString].
  destruct (pageLoop loopIterations _ (id u) _ 0 initialTotals) as [exit c].
  destruct exit as [a|msg]; [|reflexivity].
  destruct (arrayFromLength _); [|reflexivity].
  destruct (mapM _ _); reflexivity.
Qed.

Lemma page_requests_offsets_witness :
  (pageRequests pagedWorld (daysRequest "7")).*1 = [0; 1000; 2000].
Proof.
  rewrite (page_requests_offsets pagedWorld (daysRequest "7") (mkUser "alice") 7
             eq_refl eq_refl eq_refl
             ltac:(vm_compute; discriminate) ltac:(vm_compute; discriminate)
             ltac:(intros o; reflexivity)).
  vm_compute. reflexivity.
Defined.

(** * Bounds on the output *)

Lemma mathRound_bounds lo hi num den :
  0 < den -> lo * den <= num <= hi * den ->
  lo <= mathRound num den <= hi.
Proof.
  intros Hden [Hlo Hhi]. unfold mathRound. split.
  - apply Z.div_le_lower_bound; nia.
  - apply Z.lt_succ_r. apply Z.div_lt_upper_bound; nia.
Qed.

Lemma toFixed_bounds scale hi num den :
  0 < den -> 0 <= scale -> 0 <= num <= hi * den ->
  0 <= toFixed scale num den <= scale * hi.
Proof.
  intros Hden Hscale [Hlo Hhi]. unfold toFixed.
  destruct (Z.ltb_spec num 0); [lia|].
  apply mathRound_bounds; [assumption|]. nia.
Qed.

Lemma sumOf_bounds f lo hi (l : list Evaluation) :
  (forall e, e ∈ l -> lo <= f e <= hi) ->
  lo * Z.of_nat (length l) <= sumOf f l <= hi * Z.of_nat (length l).
Proof.
  induction l as [|e l IH]; intros Hall; [cbn; lia|].
  assert (He : lo <= f e <= hi) by (apply Hall; left).
  assert (Hl : lo * Z.of_nat (length l) <= sumOf f l <= hi * Z.of_nat (length l))
    by (apply IH; intros e' Hin; apply Hall; by right).
  change (sumOf f (e :: l)) with (f e + sumOf f l). cbn [length]. nia.
Qed.

Lemma sumOf_nonneg f (l : list Evaluation) :
  (forall e, e ∈ l -> 0 <= f e) -> 0 <= sumOf f l.
Proof.
  induction l as [|e l IH]; intros Hall; [cbn; lia|].
  assert (He : 0 <= f e) by (apply Hall; left).
  assert (Hl : 0 <= sumOf f l) by (apply IH; intros e' Hin; apply Hall; by right).
  change (sumOf f (e :: l)) with (f e + sumOf f l). lia.
Qed.

Lemma directPoint_bounds (l : list Evaluation) date :
  (forall e, e ∈ l -> 0 <= score e <= pts 100 /\ 0 <= latency_ms e) ->
  let p := directPoint l date in
  0 <= Point.count p /\ 0 <= Point.avgScore p <= 1000 /\ 0 <= Point.avgLatency p.
Proof.
  intros Hall. unfold directPoint.
  set (rows := filter (onDate date) l).
  assert (Hrows : forall e, e ∈ rows -> e ∈ l).
  { intros e He. subst rows. by apply list_elem_of_filter in He as [_ He]. }
  destruct (Z.eqb_spec (Z.of_nat (length rows)) 0) as [Hz|Hnz]; cbn; [lia|].
  pose proof (sumOf_bounds score 0 (pts 100) rows
                (fun e He => proj1 (Hall e (Hrows e He)))) as Hs.
  pose proof (sumOf_nonneg latency_ms rows
                (fun e He => proj2 (Hall e (Hrows e He)))) as Hlat.
  split; [lia|]. split.
  - change 1000 with (10 * 100). apply toFixed_bounds; unfold pts in *; lia.
  - unfold mathRound. apply Z.div_pos; lia.
Qed.

(** X5: when the scores of the tenant's records are between 0 and 100 and
    their latencies are not negative, as the table constraints require,
    every successful response has averages within range: [avgScore] and
    [successRate] between 0 and 100.0, [avgLatency] not negative,
    [totalEvals] between 0 and 100000, and the same for each daily
    point. *)
Theorem response_within_bounds w req s :
  GET w req = JsonData s ->
  (forall e, e ∈ evaluations (db w) ->
             0 <= score e <= pts 100 /\ 0 <= latency_ms e) ->
  0 <= Stats.totalEvals s <= maxOffset /\
  0 <= Stats.avgScore s <= 1000 /\
  0 <= Stats.successRate s <= 1000 /\
  0 <= Stats.avgLatency s /\
  Forall (fun p => 0 <= Point.count p /\ 0 <= Point.avgScore p <= 1000 /\
                   0 <= Point.avgLatency p)
         (Stats.dailyTrends s).
Proof.
  intros Hget Hcheck.
  apply GET_data_inv in Hget as [u [d [_ [_ [_ [_ [Hrows ->]]]]]]].
  set (L := countedRows (pageRequests w req)) in *.
  assert (HL : forall e, e ∈ L -> 0 <= score e <= pts 100 /\ 0 <= latency_ms e).
  { intros e He. apply Hcheck. rewrite Hrows in He.
    by apply counted_elem in He as [He _]. }
  assert (Hlen : Z.of_nat (length L) <= maxOffset).
  { rewrite Hrows, length_take. unfold maxOffset. lia. }
  cbn [directStats Stats.totalEvals Stats.avgScore Stats.successRate
       Stats.avgLatency Stats.dailyTrends].
  split; [lia|].
  pose proof (sumOf_bounds score 0 (pts 100) L (fun e He => proj1 (HL e He))) as Hs.
  pose proof (sumOf_nonneg latency_ms L (fun e He => proj2 (HL e He))) as Hlat.
  pose proof (countIf_nonneg isSuccess L) as Hs0.
  pose proof (countIf_le_length isSuccess L) as Hs1.
  destruct (Z.ltb_spec 0 (Z.of_nat (length L))) as [Hpos|Hzero].
  - split; [change 1000 with (10 * 100); apply toFixed_bounds; unfold pts in *; lia|].
    split; [change 1000 with (10 * 100); apply toFixed_bounds; lia|].
    split.
    + unfold toFixed. destruct (Z.ltb_spec (sumOf latency_ms L) 0); [lia|].
      unfold mathRound. apply Z.div_pos; lia.
    + apply Forall_fmap, Forall_forall. intros date _. by apply directPoint_bounds.
  - split; [lia|]. split; [lia|]. split; [lia|].
    apply Forall_fmap, Forall_forall. intros date _. by apply directPoint_bounds.
Qed.

Lemma response_within_bounds_witness :
  exists s, GET sampleWorld (daysRequest "30") = JsonData s /\
            0 <= Stats.avgScore s <= 1000 /\ 0 <= Stats.successRate s <= 1000.
Proof.
  assert (Hget : exists s, GET sampleWorld (daysRequest "30") = JsonData s)
    by (eexists; vm_compute; reflexivity).
  destruct Hget as [s Hget]. exists s. split; [exact Hget|].
  destruct (response_within_bounds sampleWorld (daysRequest "30") s Hget)
    as [_ [Hscore [Hrate _]]]; [|by split].
  apply Forall_forall. repeat constructor; vm_compute; discriminate.
Defined.

(** * The empty window *)

(** X6: when no record of the tenant lies at or after the window start, a
    successful response reports zero everywhere: no division by the zero
    count takes place, in the totals or in any daily point. *)
Theorem empty_window_is_all_zero w req u d s :
  user (auth w) = Some u -> parseDays req = Some d ->
  GET w req = JsonData s ->
  (forall e, e ∈ evaluations (db w) -> user_id e = id u ->
             created_at e < startDay (now w) d * msPerDay) ->
  s = Stats.mk 0 0 0 0 0
        ((fun date => Point.mk date 0 0 0) <$> windowDates (now w) d)
        (Dist.mk 0 0 0 0).
Proof.
  intros Hu Hd Hget Hnone.
  apply GET_data_inv in Hget as [u' [d' [_ [Hu' [Hd' [_ [Hrows ->]]]]]]].
  assert (u' = u) as -> by congruence. assert (d' = d) as -> by congruence.
  assert (Hnil : countedRows (pageRequests w req) = []).
  { destruct (countedRows (pageRequests w req)) as [|e l] eqn:HL; [reflexivity|].
    assert (He : e ∈ take (Z.to_nat maxOffset)
                   (matching (db w) (id u) (startDay (now w) d * msPerDay)))
      by (rewrite <- Hrows; left).
    apply counted_elem in He as [He [Hid Hs]].
    specialize (Hnone e He Hid). lia. }
  rewrite Hnil. unfold directStats. cbn [length Z.of_nat Z.ltb Z.compare].
  f_equal.
Qed.

Lemma empty_window_is_all_zero_witness :
  GET sampleWorld (daysRequest "-5")
  = JsonData (Stats.mk 0 0 0 0 0
                ((fun date => Point.mk date 0 0 0) <$> windowDates clock (-5))
                (Dist.mk 0 0 0 0)).
Proof.
  assert (Hget : exists s, GET sampleWorld (daysRequest "-5") = JsonData s)
    by (eexists; vm_compute; reflexivity).
  destruct Hget as [s Hget]. rewrite Hget. f_equal.
  apply (empty_window_is_all_zero sampleWorld (daysRequest "-5")
           (mkUser "alice") (-5) s eq_refl eq_refl Hget).
  intros e He _. revert e He. apply Forall_forall.
  repeat constructor; vm_compute; reflexivity.
Defined.

(** * The order of the rows in the table *)



(** * Windows of different length *)

Lemma filter_length_mono (P Q : Evaluation -> Prop)
    `{!forall e, Decision (P e)} `{!forall e, Decision (Q e)} (l : list Evaluation) :
  (forall e, P e -> Q e) -> (length (filter P l) <= length (filter Q l))%nat.
Proof.
  intros HPQ. induction l as [|e l IH]; [reflexivity|].
  rewrite !filter_cons.
  destruct (decide (P e)) as [HP|HP]; destruct (decide (Q e)) as [HQ|HQ];
    cbn [length]; try lia.
  exfalso. auto.
Qed.

Lemma matches_earlier uid since1 since2 e :
  since2 <= since1 -> matches uid since1 e -> matches uid since2 e.
Proof. unfold matches. intros Hle [Hu Hs]. split; [assumption | lia]. Qed.

(** X18: for the same store and clock, a window of more days never
    reports fewer evaluations: [totalEvals] does not decrease with
    [days]. *)
Theorem wider_window_counts_more w req1 req2 d1 d2 s1 s2 :
  parseDays req1 = Some d1 -> parseDays req2 = Some d2 -> d1 <= d2 ->
  GET w req1 = JsonData s1 -> GET w req2 = JsonData s2 ->
  Stats.totalEvals s1 <= Stats.totalEvals s2.
Proof.
  intros Hd1 Hd2 Hle Hget1 Hget2.
  apply GET_data_inv in Hget1 as [u1 [d1' [_ [Hu1 [Hd1' [_ [Hrows1 ->]]]]]]].
  apply GET_data_inv in Hget2 as [u2 [d2' [_ [Hu2 [Hd2' [_ [Hrows2 ->]]]]]]].
  assert (d1' = d1) as -> by congruence. assert (d2' = d2) as -> by congruence.
  assert (u2 = u1) as -> by congruence.
  cbn [directStats Stats.totalEvals]. rewrite Hrows1, Hrows2, !length_take.
  rewrite !(Permutation_length (matching_Permutation _ _ _)).
  pose proof (filter_length_mono
                (matches (id u1) (startDay (now w) d1 * msPerDay))
                (matches (id u1) (startDay (now w) d2 * msPerDay))
                (evaluations (db w))) as Hmono.
  assert (Hsince : startDay (now w) d2 * msPerDay <= startDay (now w) d1 * msPerDay)
    by (unfold startDay, msPerDay; lia).
  specialize (Hmono (fun e => matches_earlier _ _ _ e Hsince)). lia.
Qed.

Lemma wider_window_counts_more_witness :
  exists s1 s2,
    GET sampleWorld (daysRequest "1") = JsonData s1 /\
    GET sampleWorld (daysRequest "7") = JsonData s2 /\
    Stats.totalEvals s1 <= Stats.totalEvals s2.
Proof.
  assert (H1 : exists s, GET sampleWorld (daysRequest "1") = JsonData s)
    by (eexists; vm_compute; reflexivity).
  assert (H2 : exists s, GET sampleWorld (daysRequest "7") = JsonData s)
    by (eexists; vm_compute; reflexivity).
  destruct H1 as [s1 H1]. destruct H2 as [s2 H2]. exists s1, s2.
  split; [exact H1|]. split; [exact H2|].
  apply (wider_window_counts_more sampleWorld (daysRequest "1") (daysRequest "7")
           1 7 s1 s2 eq_refl eq_refl ltac:(lia) H1 H2).
Defined.

Lemma directPoint_same_day l1 l2 date :
  filter (onDate date) l1 ≡ₚ filter (onDate date) l2 ->
  directPoint l1 date = directPoint l2 date.
Proof.
  intros Hf. unfold directPoint.
  rewrite (Permutation_length Hf), (sumOf_Permutation score _ _ Hf),
    (sumOf_Permutation latency_ms _ _ Hf). reflexivity.
Qed.

Lemma DayOf_upper day t : day <= DayOf t -> day * msPerDay <= t.
Proof.
  intros H. unfold DayOf in H.
  pose proof (Z.mul_div_le t msPerDay ltac:(reflexivity)).
  unfold msPerDay in *. lia.
Qed.

Lemma day_rows_of_matching st uid since date :
  filter (onDate date) (matching st uid since)
  ≡ₚ filter (fun e => onDate date e /\ matches uid since e) (evaluations st).
Proof. by rewrite matching_Permutation, list_filter_filter. Qed.

Lemma windowDates_drop nowMs d1 d2 :
  0 <= d1 <= d2 ->
  windowDates nowMs d1 = drop (Z.to_nat (d2 - d1)) (windowDates nowMs d2).
Proof.
  intros Hd. apply list_eq. intros i. rewrite lookup_drop.
  destruct (decide (i < Z.to_nat d1)%nat) as [Hi|Hi].
  - assert (H1 : windowDates nowMs d1 !! i
                 = Some (civil_from_days (startDay nowMs d1 + Z.of_nat i)))
      by (apply windowDates_lookup; auto).
    assert (H2 : windowDates nowMs d2 !! (Z.to_nat (d2 - d1) + i)%nat
                 = Some (civil_from_days (startDay nowMs d1 + Z.of_nat i))).
    { apply windowDates_lookup. split; [|lia]. f_equal. unfold startDay. lia. }
    etransitivity; [exact H1 | symmetry; exact H2].
  - rewrite !lookup_ge_None_2; [reflexivity | |];
      rewrite windowDates_length; lia.
Qed.

(** X19: while at most 100000 records match the wider window, the daily
    series of a window of fewer days is the tail of the series of the wider
    one for the same store and clock: the points of the days both windows
    cover are the same. *)
Theorem narrow_series_is_tail w req1 req2 u d1 d2 s1 s2 :
  user (auth w) = Some u ->
  parseDays req1 = Some d1 -> parseDays req2 = Some d2 -> 0 <= d1 <= d2 ->
  GET w req1 = JsonData s1 -> GET w req2 = JsonData s2 ->
  (length (filter (matches (id u) (startDay (now w) d2 * msPerDay))
                  (evaluations (db w))) <= Z.to_nat maxOffset)%nat ->
  Stats.dailyTrends s1 = drop (Z.to_nat (d2 - d1)) (Stats.dailyTrends s2).
Proof.
  intros Hu Hd1 Hd2 Hle Hget1 Hget2 Hcap.
  apply GET_data_inv in Hget1 as [u1 [d1' [_ [Hu1 [Hd1' [_ [Hrows1 ->]]]]]]].
  apply GET_data_inv in Hget2 as [u2 [d2' [_ [Hu2 [Hd2' [_ [Hrows2 ->]]]]]]].
  assert (d1' = d1) as -> by congruence. assert (d2' = d2) as -> by congruence.
  assert (u1 = u) as -> by congruence. assert (u2 = u) as -> by congruence.
  set (since1 := startDay (now w) d1 * msPerDay) in *.
  set (since2 := startDay (now w) d2 * msPerDay) in *.
  assert (Hsince : since2 <= since1)
    by (subst since1 since2; unfold startDay, msPerDay; lia).
  assert (Hcap1 : (length (filter (matches (id u) since1) (evaluations (db w)))
                   <= Z.to_nat maxOffset)%nat).
  { etransitivity; [|exact Hcap]. apply filter_length_mono.
    intros e. by apply matches_earlier. }
  rewrite take_ge in Hrows1, Hrows2
    by (by rewrite (Permutation_length (matching_Permutation _ _ _))).
  cbn [directStats Stats.dailyTrends]. rewrite Hrows1, Hrows2.
  rewrite <- fmap_drop, <- (windowDates_drop (now w) d1 d2 Hle).
  apply list_fmap_ext. intros i date Hdate.
  apply windowDates_lookup in Hdate as [-> Hi].
  apply directPoint_same_day. rewrite !day_rows_of_matching.
  erewrite list_filter_iff; [reflexivity|].
  intros e. cbv beta. split; intros [Hon Hm]; (split; [exact Hon|]).
  - by apply (matches_earlier _ since1).
  - destruct Hm as [Hid _]. split; [exact Hid|].
    apply onDate_civil in Hon. subst since1.
    apply DayOf_upper. lia.
Qed.

Lemma narrow_series_is_tail_witness :
  exists s1 s2,
    GET sampleWorld (daysRequest "7") = JsonData s1 /\
    GET sampleWorld (daysRequest "30") = JsonData s2 /\
    Stats.dailyTrends s1 = drop 23 (Stats.dailyTrends s2).
Proof.
  assert (H1 : exists s, GET sampleWorld (daysRequest "7") = JsonData s)
    by (eexists; vm_compute; reflexivity).
  assert (H2 : exists s, GET sampleWorld (daysRequest "30") = JsonData s)
    by (eexists; vm_compute; reflexivity).
  destruct H1 as [s1 H1]. destruct H2 as [s2 H2]. exists s1, s2.
  split; [exact H1|]. split; [exact H2|].
  apply (narrow_series_is_tail sampleWorld (daysRequest "7") (daysRequest "30")
           (mkUser "alice") 7 30 s1 s2 eq_refl eq_refl eq_refl ltac:(lia) H1 H2).
  apply Nat.leb_le. vm_compute. reflexivity.
Defined.

(** * The keep-alive endpoint *)

(** X9: in production with a non-empty [CRON_SECRET], a request is served
    only when its authorization header is exactly ["Bearer "] followed by
    the secret; any other request, or one without the header, gets 401 and
    no query reaches the store. *)
Theorem cron_secret_is_enforced w req secret :
  KeepAlive.NODE_ENV (KeepAlive.env w) = Some "production"%string ->
  KeepAlive.CRON_SECRET (KeepAlive.env w) = Some secret ->
  secret <> ""%string ->
  (KeepAlive.authorization req <> Some ("Bearer " ++ secret)%string ->
   KeepAlive.GET w req = (Some KeepAlive.Unauthorized, 0%nat)) /\
  (KeepAlive.authorization req = Some ("Bearer " ++ secret)%string ->
   (KeepAlive.GET w req).2 = 1%nat /\
   (KeepAlive.GET w req).1 <> Some KeepAlive.Unauthorized).
Proof.
  intros Henv Hsecret Hne.
  assert (Htruthy : KeepAlive.truthy (Some secret) = true)
    by (destruct secret; [congruence | reflexivity]).
  unfold KeepAlive.GET, KeepAlive.tryBody, KeepAlive.turnedAway.
  rewrite Henv, Hsecret, Htruthy. cbn [default from_option Datatypes.id].
  rewrite bool_decide_eq_true_2 by reflexivity. cbn [andb].
  split; intros Hauth.
  - rewrite bool_decide_eq_false_2 by exact Hauth. reflexivity.
  - rewrite bool_decide_eq_true_2 by exact Hauth. cbn [negb].
    destruct (KeepAlive.error _); destruct (KeepAlive.timestampNow w);
      cbn; split; (reflexivity || discriminate).
Qed.

Lemma cron_secret_is_enforced_witness :
  let w := KeepAlive.mkWorld (KeepAlive.mkEnv (Some "production") (Some "s3cret"))%string
             clock (KeepAlive.mkCountResult (Some 42) None) in
  KeepAlive.GET w (KeepAlive.mkRequest (Some "Bearer wrong"%string))
  = (Some KeepAlive.Unauthorized, 0%nat) /\
  KeepAlive.GET w (KeepAlive.mkRequest None) = (Some KeepAlive.Unauthorized, 0%nat) /\
  (KeepAlive.GET w (KeepAlive.mkRequest (Some "Bearer s3cret"%string))).2 = 1%nat.
Proof.
  intros w.
  split; [|split].
  - apply (proj1 (cron_secret_is_enforced w _ "s3cret" eq_refl eq_refl
                    ltac:(discriminate))). discriminate.
  - apply (proj1 (cron_secret_is_enforced w _ "s3cret" eq_refl eq_refl
                    ltac:(discriminate))). discriminate.
  - apply (proj2 (cron_secret_is_enforced w _ "s3cret" eq_refl eq_refl
                    ltac:(discriminate))). reflexivity.
Defined.

(** X10: outside production, or when [CRON_SECRET] is unset or empty, the
    authorization header is not looked at: every request is served alike,
    the store is queried once, and the response is never 401. *)
Theorem cron_without_secret_is_open w req1 req2 :
  KeepAlive.NODE_ENV (KeepAlive.env w) <> Some "production"%string \/
  KeepAlive.CRON_SECRET (KeepAlive.env w) = None \/
  KeepAlive.CRON_SECRET (KeepAlive.env w) = Some ""%string ->
  KeepAlive.GET w req1 = KeepAlive.GET w req2 /\
  (KeepAlive.GET w req1).2 = 1%nat /\
  (KeepAlive.GET w req1).1 <> Some KeepAlive.Unauthorized.
Proof.
  intros Hopen.
  assert (Hoff : forall h, KeepAlive.turnedAway (KeepAlive.env w) h = false).
  { intros h. unfold KeepAlive.turnedAway. destruct Hopen as [Hdev|[Hno|Hempty]].
    - by rewrite bool_decide_eq_false_2.
    - rewrite Hno. cbn. by rewrite andb_false_r.
    - rewrite Hempty. cbn. by rewrite andb_false_r. }
  unfold KeepAlive.GET, KeepAlive.tryBody. rewrite !Hoff.
  split; [reflexivity|].
  destruct (KeepAlive.error _); destruct (KeepAlive.timestampNow w);
    cbn; split; (reflexivity || discriminate).
Qed.

Lemma cron_without_secret_is_open_witness :
  let w := KeepAlive.mkWorld (KeepAlive.mkEnv (Some "production"%string) None)
             clock (KeepAlive.mkCountResult None None) in
  KeepAlive.GET w (KeepAlive.mkRequest None)
  = KeepAlive.GET w (KeepAlive.mkRequest (Some "Bearer anything"%string)) /\
  KeepAlive.GET w (KeepAlive.mkRequest None)
  = (Some (KeepAlive.Alive "Database is active" 0 clock), 1%nat).
Proof.
  intros w. split; [|reflexivity].
  apply (cron_without_secret_is_open w). right. left. reflexivity.
Defined.

(** * The demo seed script *)

Lemma ToUint32_range x : 0 <= Seed.ToUint32 x < Seed.two32.
Proof. unfold Seed.ToUint32. apply Z.mod_pos_bound. reflexivity. Qed.

Lemma ToUint32_small x : 0 <= x < Seed.two32 -> Seed.ToUint32 x = x.
Proof. intros H. unfold Seed.ToUint32. by apply Z.mod_small. Qed.

Lemma ToUint32_ToInt32 x : Seed.ToUint32 (Seed.ToInt32 x) = Seed.ToUint32 x.
Proof.
  unfold Seed.ToUint32, Seed.ToInt32.
  destruct (x mod Seed.two32 <? 2147483648).
  - apply Z.mod_mod. discriminate.
  - rewrite <- Zminus_mod_idemp_r, Z.mod_same, Z.sub_0_r by discriminate.
    apply Z.mod_mod. discriminate.
Qed.

Lemma ushr_0 x : Seed.ushr x 0 = Seed.ToUint32 x.
Proof. unfold Seed.ushr. apply Z.shiftr_0_r. Qed.

Lemma ToUint32_imul a b : Seed.ToUint32 (Seed.imul a b) = (a * b) mod Seed.two32.
Proof.
  unfold Seed.imul. rewrite ToUint32_ToInt32. unfold Seed.ToUint32.
  rewrite Z.mul_mod by discriminate.
  fold (Seed.ToUint32 (Seed.ToInt32 a)). fold (Seed.ToUint32 (Seed.ToInt32 b)).
  rewrite !ToUint32_ToInt32. unfold Seed.ToUint32.
  by rewrite <- Z.mul_mod by discriminate.
Qed.

Lemma mod_two32_land x : x mod Seed.two32 = Z.land x (Z.ones 32).
Proof. symmetry. apply (Z.land_ones x 32). lia. Qed.

Lemma lxor_mod_two32 a b :
  Z.lxor a b mod Seed.two32 = Z.lxor (a mod Seed.two32) (b mod Seed.two32).
Proof.
  rewrite !mod_two32_land. apply Z.bits_inj'. intros n Hn.
  rewrite Z.lxor_spec, !Z.land_spec, Z.lxor_spec.
  destruct (Z.testbit (Z.ones 32) n); [by rewrite !andb_true_r|].
  by rewrite !andb_false_r.
Qed.

Lemma ToUint32_xor a b :
  Seed.ToUint32 (Seed.xor a b) = Z.lxor (Seed.ToUint32 a) (Seed.ToUint32 b).
Proof.
  unfold Seed.xor. rewrite ToUint32_ToInt32. unfold Seed.ToUint32 at 1.
  rewrite lxor_mod_two32.
  fold (Seed.ToUint32 (Seed.ToInt32 a)). fold (Seed.ToUint32 (Seed.ToInt32 b)).
  by rewrite !ToUint32_ToInt32.
Qed.

Lemma charCodes_range input :
  Forall (fun c => 0 <= c < Seed.two32) (Seed.charCodes input).
Proof.
  unfold Seed.charCodes. apply Forall_fmap, Forall_forall. intros c _. cbn.
  pose proof (nat_ascii_bounded c). unfold Seed.two32. lia.
Qed.

Lemma hash_fold_unsigned codes : forall h,
  Forall (fun c => 0 <= c < Seed.two32) codes ->
  Seed.ToUint32
    (fold_left (fun hash c => Seed.imul (Seed.xor hash c) 16777619) codes h)
  = fold_left (fun h c => (Z.lxor h c * 16777619) mod Seed.two32) codes
      (Seed.ToUint32 h).
Proof.
  induction codes as [|c codes IH]; intros h Hall; [reflexivity|].
  apply Forall_cons in Hall as [Hc Hall]. cbn [fold_left].
  rewrite (IH _ Hall). f_equal.
  rewrite ToUint32_imul, <- Z.mul_mod_idemp_l by discriminate.
  fold (Seed.ToUint32 (Seed.xor h c)).
  by rewrite ToUint32_xor, (ToUint32_small c Hc).
Qed.

(** X11: [hashStringToUint32] computes the 32-bit FNV-1a hash of the
    character codes: its signed 32-bit steps ([^=], [Math.imul], the final
    [>>> 0]) give the result of the unsigned computation, a number from 0
    to 2^32 - 1. *)
Theorem hash_is_fnv1a input :
  Seed.hashStringToUint32 input = Seed.fnv1a32 (Seed.charCodes input) /\
  0 <= Seed.hashStringToUint32 input < Seed.two32.
Proof.
  unfold Seed.hashStringToUint32. rewrite ushr_0. split.
  - rewrite (hash_fold_unsigned _ _ (charCodes_range input)). reflexivity.
  - apply ToUint32_range.
Qed.

Lemma next_range t : 0 <= (Seed.next t).1 < Seed.two32.
Proof. unfold Seed.next. cbn [fst]. rewrite ushr_0. apply ToUint32_range. Qed.

Lemma floorTimes_range u k :
  0 <= u < Seed.two32 -> 0 < k -> 0 <= Seed.floorTimes u k <= k - 1.
Proof.
  intros Hu Hk. unfold Seed.floorTimes, Seed.two32 in *. split.
  - apply Z.div_pos; nia.
  - apply Z.lt_succ_r. apply Z.div_lt_upper_bound; nia.
Qed.

(** X12: whatever the state of the generator, [generatePiiTokens] returns
    a whole number from 0 to 5, so a seeded row never breaks the table
    constraint [pii_tokens_redacted >= 0]. *)
Theorem pii_tokens_range t : 0 <= (Seed.generatePiiTokens t).1 <= 5.
Proof.
  unfold Seed.generatePiiTokens.
  destruct (Seed.next t) as [rand t1] eqn:H1.
  destruct (Seed.below rand Seed.double_0_82); [cbn; lia|].
  pose proof (next_range t1) as Hr.
  destruct (Seed.next t1) as [r t2]. cbn [fst] in Hr.
  pose proof (floorTimes_range r 3 Hr ltac:(lia)).
  destruct (Seed.below rand Seed.double_0_95); cbn [fst]; lia.
Qed.

Lemma midnight_valid t :
  Z.abs t <= maxTimeValue -> Z.abs (DayOf t * msPerDay) <= maxTimeValue.
Proof.
  intros H. unfold DayOf, maxTimeValue, msPerDay in *.
  pose proof (Z.div_mod t 86400000 ltac:(discriminate)).
  pose proof (Z.mod_pos_bound t 86400000 ltac:(reflexivity)). lia.
Qed.

Lemma utcStartOfDay_valid t :
  Z.abs t <= maxTimeValue ->
  ~ (0 <= YearFromTime t <= 99) ->
  Seed.utcStartOfDay (Some t) = Some (DayOf t * msPerDay).
Proof.
  intros Hvalid Hyear.
  unfold Seed.utcStartOfDay, Seed.DateUTC. cbn [Seed.getUTCFullYear
    Seed.getUTCMonth getUTCDate fmap option_fmap option_map].
  replace ((0 <=? YearFromTime t) && (YearFromTime t <=? 99)) with false
    by (symmetry; apply andb_false_iff; lia).
  pose proof (MakeDay_shift t 0) as Hday. rewrite !Z.add_0_r in Hday.
  rewrite Hday. unfold MakeDate. rewrite Z.add_0_r.
  apply TimeClip_valid. by apply midnight_valid.
Qed.

(** X13: for a valid date outside the years 0 to 99, which [Date.UTC]
    reads as 1900 to 1999, [utcStartOfDay] is the UTC midnight that begins
    the day of the date: the same instant the statistics handler gets from
    [setUTCHours(0, 0, 0, 0)]. *)
Theorem utcStartOfDay_is_midnight t :
  Z.abs t <= maxTimeValue ->
  ~ (0 <= YearFromTime t <= 99) ->
  Seed.utcStartOfDay (Some t) = Some (DayOf t * msPerDay) /\
  Seed.utcStartOfDay (Some t) = setUTCHours0 (Some t).
Proof.
  intros Hvalid Hyear.
  pose proof (utcStartOfDay_valid t Hvalid Hyear) as Hmid.
  split; [exact Hmid|]. rewrite Hmid. cbn [setUTCHours0].
  unfold MakeDate. rewrite Z.add_0_r. symmetry.
  apply TimeClip_valid. by apply midnight_valid.
Qed.

Lemma utcStartOfDay_is_midnight_witness :
  Seed.utcStartOfDay (Some clock) = Some (DayOf clock * msPerDay) /\
  Seed.utcStartOfDay (Some clock) = setUTCHours0 (Some clock).
Proof.
  apply utcStartOfDay_is_midnight; [vm_compute; discriminate|].
  vm_compute. intros [_ H]. apply H. reflexivity.
Defined.

(** X14: every [created_at] the seed script draws for the day with index
    [i] of [days] days lies, for the same clock, inside the window of the
    statistics handler for [days]: at or after the window start, between
    02:00 and 22:00 UTC of the [i]-th calendar day of the window, and so in
    the daily point of that day. *)
Theorem seeded_rows_fall_in_window nowMs days i t created :
  Z.abs nowMs <= maxTimeValue ->
  ~ (0 <= YearFromTime nowMs <= 99) ->
  0 <= i < days ->
  Seed.seedCreatedAt nowMs days i (Seed.next t).1 = Some created ->
  let dayStart := (startDay nowMs days + i) * msPerDay in
  dayStart + 7200000 <= created < dayStart + 79200000 /\
  startDay nowMs days * msPerDay <= created /\
  windowDates nowMs days !! Z.to_nat i = Some (dateKeyFromCreatedAt created).
Proof.
  intros Hvalid Hyear Hi Hseed dayStart.
  pose proof (next_range t) as Hu. set (u := (Seed.next t).1) in *.
  unfold Seed.seedCreatedAt, Seed.seedDayStart, newDate in Hseed.
  rewrite (TimeClip_valid _ Hvalid) in Hseed.
  rewrite (utcStartOfDay_valid nowMs Hvalid Hyear) in Hseed.
  destruct (TimeClip _) as [start|] eqn:Hstart; [|discriminate].
  apply TimeClip_Some in Hstart as [-> _].
  unfold Seed.randomTimestampWithinUtcDay, toISOString in Hseed.
  apply TimeClip_Some in Hseed as [-> _].
  pose proof (floorTimes_range u (60 * 60 * 22 - 60 * 60 * 2) Hu ltac:(lia)) as Hs.
  set (secs := Seed.floorTimes u (60 * 60 * 22 - 60 * 60 * 2)) in *.
  assert (Hcreated : DayOf nowMs * msPerDay - (days - 1 - i) * 24 * 60 * 60 * 1000
                     + (60 * 60 * 2 + secs) * 1000
                     = dayStart + (7200 + secs) * 1000).
  { subst dayStart. unfold startDay, msPerDay. lia. }
  rewrite Hcreated. split; [lia|]. split.
  - subst dayStart. unfold msPerDay. lia.
  - apply windowDates_lookup. split; [|lia].
    unfold dateKeyFromCreatedAt, isoDatePart. f_equal.
    rewrite Z2Nat.id by lia. subst dayStart. unfold DayOf.
    symmetry. apply (Z.div_unique _ _ _ ((7200 + secs) * 1000));
      unfold msPerDay; lia.
Qed.

Lemma seeded_rows_fall_in_window_witness :
  exists created,
    Seed.seedCreatedAt clock 30 0 (Seed.next 7).1 = Some created /\
    windowDates clock 30 !! 0%nat = Some (dateKeyFromCreatedAt created).
Proof.
  assert (H : exists created,
             Seed.seedCreatedAt clock 30 0 (Seed.next 7).1 = Some created)
    by (eexists; vm_compute; reflexivity).
  destruct H as [created H]. exists created. split; [exact H|].
  refine (proj2 (proj2 (seeded_rows_fall_in_window clock 30 0 7 created _ _ _ H))).
  - vm_compute. discriminate.
  - vm_compute. intros [_ Hy]. apply Hy. reflexivity.
  - lia.
Defined.

(** * The stat cards *)

Lemma Qeq_bool_false x y : ~ (x == y)%Q -> Qeq_bool x y = false.
Proof.
  intros H. destruct (Qeq_bool x y) eqn:E; [|reflexivity].
  apply Qeq_bool_iff in E. contradiction.
Qed.

Lemma Qle_bool_false x y : (y < x)%Q -> Qle_bool x y = false.
Proof.
  intros H. destruct (Qle_bool x y) eqn:E; [|reflexivity].
  apply Qle_bool_iff in E. lra.
Qed.

Lemma Qle_bool_true x y : (x <= y)%Q -> Qle_bool x y = true.
Proof. apply Qle_bool_iff. Qed.

(** X15: [computeTrend] reports "Steady" exactly when the two values are
    equal; otherwise the direction is up for an increase and down for a
    decrease, the other way round for a card with [invertTrend] (the
    average latency), and the label starts with "+" when the direction is
    up and with "-" when it is down: the sign follows the direction, not
    the change of the value.  Rounding to a double is only assumed to keep
    zero and the sign. *)
Theorem trend_direction fl toFixedString current previous invertTrend suffix :
  (forall x, (fl x == 0 <-> x == 0)%Q /\ (0 < fl x <-> 0 < x)%Q) ->
  exists m,
    Trend.computeTrend fl toFixedString current (Some previous) invertTrend suffix
    = Some m /\
    match (current ?= previous)%Q with
    | Eq => m = Trend.mkTrendMeta "Steady" Trend.flat
    | Gt => Trend.direction m
            = (if default false invertTrend then Trend.down else Trend.up)
    | Lt => Trend.direction m
            = (if default false invertTrend then Trend.up else Trend.down)
    end /\
    (Trend.direction m = Trend.up ->
     exists rest, Trend.deltaLabel m = String "+" rest) /\
    (Trend.direction m = Trend.down ->
     exists rest, Trend.deltaLabel m = String "-" rest).
Proof.
  intros Hfl. unfold Trend.computeTrend.
  set (d := fl (current - previous)%Q).
  destruct (Hfl (current - previous)%Q) as [Hzero Hpos]. fold d in Hzero, Hpos.
  destruct (Qcompare_spec current previous) as [Heq|Hlt|Hgt].
  - rewrite (proj2 (Qeq_bool_iff d 0)) by (apply Hzero; lra).
    eexists. split; [reflexivity|]. split; [reflexivity|].
    split; cbn; discriminate.
  - assert (Hneg : (d < 0)%Q).
    { destruct (Qlt_le_dec d 0) as [H|H]; [exact H|].
      destruct (Qle_lt_or_eq _ _ H) as [H'|H'].
      - apply Hpos in H'. lra.
      - symmetry in H'. apply Hzero in H'. lra. }
    rewrite Qeq_bool_false by lra.
    destruct (default false invertTrend).
    + rewrite Qle_bool_false by lra.
      eexists. split; [reflexivity|]. cbn [Trend.direction Trend.deltaLabel].
      split; [reflexivity|]. split; [eauto | discriminate].
    + rewrite Qle_bool_true by lra.
      eexists. split; [reflexivity|]. cbn [Trend.direction Trend.deltaLabel].
      split; [reflexivity|]. split; [discriminate | eauto].
  - assert (Hp : (0 < d)%Q) by (apply Hpos; lra).
    rewrite Qeq_bool_false by lra.
    destruct (default false invertTrend).
    + rewrite Qle_bool_true by lra.
      eexists. split; [reflexivity|]. cbn [Trend.direction Trend.deltaLabel].
      split; [reflexivity|]. split; [discriminate | eauto].
    + rewrite Qle_bool_false by lra.
      eexists. split; [reflexivity|]. cbn [Trend.direction Trend.deltaLabel].
      split; [reflexivity|]. split; [eauto | discriminate].
Qed.

Lemma trend_direction_witness :
  exists m,
    Trend.computeTrend (fun x => x) (fun _ _ => "50"%string)
      (650 # 1) (Some (700 # 1)) (Some true) (Some "ms"%string) = Some m /\
    Trend.direction m = Trend.up /\ Trend.deltaLabel m = "+50ms"%string.
Proof.
  destruct (trend_direction (fun x => x) (fun _ _ => "50"%string)
              (650 # 1) (700 # 1) (Some true) (Some "ms"%string))
    as [m [Hm [Hdir _]]].
  { intros x. split; reflexivity. }
  exists m. split; [exact Hm|]. split; [exact Hdir|].
  vm_compute in Hm. injection Hm as <-. reflexivity.
Defined.

(** * The page buttons *)

Lemma pager_step_invariant st e :
  1 <= Pager.totalPages st -> 1 <= Pager.page st <= Pager.totalPages st ->
  let st' := Pager.step st e in
  Pager.totalPages st' = Pager.totalPages st /\
  1 <= Pager.page st' <= Pager.totalPages st /\
  Z.abs (Pager.page st' - Pager.page st) <= 1 /\
  (Pager.loading st = true -> Pager.page st' = Pager.page st).
Proof.
  intros Htotal Hpage. destruct e as [b|l]; cbn [Pager.step].
  2:{ cbn. repeat split; lia. }
  unfold Pager.click, Pager.disabled, Pager.target, Pager.handlePageChange,
    Pager.orOne.
  destruct b; destruct (Pager.loading st); rewrite ?orb_true_r, ?orb_false_r;
    try (repeat split; lia).
  - destruct (Z.eqb_spec (Pager.page st) 1); [repeat split; lia|].
    destruct (Z.eqb_spec (Z.max 1 (Pager.page st - 1)) (Pager.page st));
      cbn; repeat split; try lia; discriminate.
  - destruct (Z.eqb_spec (Pager.page st) (Pager.totalPages st)); [repeat split; lia|].
    destruct (Z.eqb_spec (Pager.totalPages st) 0); [lia|].
    destruct (Z.eqb_spec (Z.min (Pager.totalPages st) (Pager.page st + 1))
                         (Pager.page st));
      cbn; repeat split; try lia; discriminate.
Qed.

(** X16: with [totalPages] at least 1 and the page in range, no sequence
    of clicks on Previous and Next, enabled or disabled, loading or not,
    takes the page out of 1..[totalPages]; [totalPages] is left alone. *)
Theorem pager_stays_in_range events : forall st,
  1 <= Pager.totalPages st -> 1 <= Pager.page st <= Pager.totalPages st ->
  let st' := fold_left Pager.step events st in
  Pager.totalPages st' = Pager.totalPages st /\
  1 <= Pager.page st' <= Pager.totalPages st.
Proof.
  induction events as [|e events IH]; intros st Htotal Hpage; cbn [fold_left].
  - split; [reflexivity | exact Hpage].
  - destruct (pager_step_invariant st e Htotal Hpage) as [Ht [Hp _]].
    destruct (IH (Pager.step st e)) as [Ht' Hp']; rewrite ?Ht; try assumption.
    split; congruence || lia.
Qed.

Lemma pager_stays_in_range_witness :
  let st := fold_left Pager.step
              [Pager.Click Pager.Next; Pager.Click Pager.Next;
               Pager.Click Pager.Next; Pager.Click Pager.Previous]
              (Pager.mkState 1 3 false) in
  1 <= Pager.page st <= 3.
Proof.
  intros st.
  apply (pager_stays_in_range _ (Pager.mkState 1 3 false)); cbn; lia.
Defined.

(** X17: with the page in range, a click on an idle list moves Previous to
    [max 1 (page - 1)] and Next to [min totalPages (page + 1)], so it does
    nothing on Previous at page 1 and on Next at the last page; while the
    list is loading a click leaves the page as it is. *)
Theorem pager_click_moves_one_page st b :
  1 <= Pager.totalPages st -> 1 <= Pager.page st <= Pager.totalPages st ->
  Pager.page (Pager.click st b) =
  if Pager.loading st then Pager.page st
  else match b with
       | Pager.Previous => Z.max 1 (Pager.page st - 1)
       | Pager.Next => Z.min (Pager.totalPages st) (Pager.page st + 1)
       end.
Proof.
  intros Htotal Hpage.
  unfold Pager.click, Pager.disabled, Pager.target, Pager.handlePageChange,
    Pager.orOne.
  destruct b; destruct (Pager.loading st); rewrite ?orb_true_r, ?orb_false_r;
    try reflexivity.
  - destruct (Z.eqb_spec (Pager.page st) 1); [lia|].
    destruct (Z.eqb_spec (Z.max 1 (Pager.page st - 1)) (Pager.page st)); cbn; lia.
  - destruct (Z.eqb_spec (Pager.page st) (Pager.totalPages st)); [lia|].
    destruct (Z.eqb_spec (Pager.totalPages st) 0); [lia|].
    destruct (Z.eqb_spec (Z.min (Pager.totalPages st) (Pager.page st + 1))
                         (Pager.page st)); cbn; lia.
Qed.

Lemma pager_click_moves_one_page_witness :
  Pager.page (Pager.click (Pager.mkState 3 3 false) Pager.Next) = 3 /\
  Pager.page (Pager.click (Pager.mkState 2 3 false) Pager.Previous) = 1.
Proof.
  split.
  - apply (pager_click_moves_one_page (Pager.mkState 3 3 false) Pager.Next);
      cbn; lia.
  - apply (pager_click_moves_one_page (Pager.mkState 2 3 false) Pager.Previous);
      cbn; lia.
Defined.
